(** * IP_lookup: the lookup endpoint and the database refresh job

    A shallow embedding of the two programs of the repository:
    - the lookup server ([isValidIPv4] and the handler of
      [GET /api/lookup/:ip?]), backed by the three MaxMind readers
      [ipCountryDB], [ipCityDB], [ipAsnDB];
    - the refresh script ([findMmdbFile], [downloadAndExtractDatabase],
      [updateAllDatabases]).

    JavaScript strings are modelled as [string]; a regular expression is
    a syntax tree run by a backtracking matcher written in the
    continuation style of the ECMAScript specification. *)

From Stdlib Require Import List Ascii String Arith Lia Bool.
Import ListNotations.

Set Warnings "-register-all".

Local Open Scope char_scope.
Local Open Scope list_scope.
Local Open Scope nat_scope.

(* ================================================================== *)
(** * Regular expressions *)
(* ================================================================== *)

Module Regex.

(** The fragment of the pattern language that the validator uses. *)
Inductive regex : Type :=
| Bol                                   (* ^ *)
| Eol                                   (* $ *)
| Chr (c : ascii)                       (* a literal character *)
| Class (ranges : list (ascii * ascii)) (* [a-bc-d...] *)
| Seq (r1 r2 : regex)                   (* r1r2 *)
| Alt (r1 r2 : regex)                   (* r1|r2 *)
| Opt (r : regex)                       (* r? *)
| Rep (n : nat) (r : regex).            (* r{n} *)

Definition char_code (c : ascii) : nat := nat_of_ascii c.

Definition in_range (x : ascii) (rg : ascii * ascii) : bool :=
  (char_code (fst rg) <=? char_code x) && (char_code x <=? char_code (snd rg)).

Definition in_class (ranges : list (ascii * ascii)) (x : ascii) : bool :=
  existsb (in_range x) ranges.

(** A continuation receives the index reached and the input left. *)
Definition cont := nat -> list ascii -> bool.

(** [rmatch r i s k]: match [r] at index [i], where [s] is the input
    from [i] on, then call [k]; alternatives are tried left to right and
    [?] is greedy. *)
Fixpoint rmatch (r : regex) (i : nat) (s : list ascii) (k : cont) : bool :=
  match r with
  | Bol => (i =? 0) && k i s
  | Eol => match s with [] => k i s | _ :: _ => false end
  | Chr c =>
      match s with
      | x :: s' => Ascii.eqb x c && k (S i) s'
      | [] => false
      end
  | Class ranges =>
      match s with
      | x :: s' => in_class ranges x && k (S i) s'
      | [] => false
      end
  | Seq r1 r2 => rmatch r1 i s (fun j t => rmatch r2 j t k)
  | Alt r1 r2 => rmatch r1 i s k || rmatch r2 i s k
  | Opt r1 => rmatch r1 i s k || k i s
  | Rep n r1 =>
      (fix rep (m : nat) : cont :=
         match m with
         | O => k
         | S m' => fun j t => rmatch r1 j t (rep m')
         end) n i s
  end.

(** [RegExp.prototype.test] without the global flag: the first start
    index, from 0 on, at which the pattern matches. *)
Fixpoint search (r : regex) (i : nat) (s : list ascii) : bool :=
  rmatch r i s (fun _ _ => true)
  || match s with
     | [] => false
     | _ :: s' => search r (S i) s'
     end.

Definition test (r : regex) (str : string) : bool :=
  search r 0 (list_ascii_of_string str).

(** ** Languages of the patterns without assertions *)

Fixpoint pure (r : regex) : bool :=
  match r with
  | Bol | Eol => false
  | Chr _ | Class _ => true
  | Seq r1 r2 | Alt r1 r2 => pure r1 && pure r2
  | Opt r1 | Rep _ r1 => pure r1
  end.

Fixpoint power (L : list ascii -> Prop) (n : nat) (w : list ascii) : Prop :=
  match n with
  | O => w = []
  | S n' => exists u v, w = u ++ v /\ L u /\ power L n' v
  end.

Fixpoint lang (r : regex) (w : list ascii) : Prop :=
  match r with
  | Bol | Eol => False
  | Chr c => w = [c]
  | Class ranges => exists x, w = [x] /\ in_class ranges x = true
  | Seq r1 r2 => exists u v, w = u ++ v /\ lang r1 u /\ lang r2 v
  | Alt r1 r2 => lang r1 w \/ lang r2 w
  | Opt r1 => w = [] \/ lang r1 w
  | Rep n r1 => power (lang r1) n w
  end.

End Regex.

Import Regex.

(* ================================================================== *)
(** * The IPv4 validator *)
(* ================================================================== *)

Definition digit : regex := Class [("0", "9")].

(** [25[0-5]|2[0-4][0-9]|[01]?[0-9][0-9]?] *)
Definition octet : regex :=
  Alt (Seq (Chr "2") (Seq (Chr "5") (Class [("0", "5")])))
      (Alt (Seq (Chr "2") (Seq (Class [("0", "4")]) digit))
           (Seq (Opt (Class [("0", "0"); ("1", "1")]))
                (Seq digit (Opt digit)))).

(** [(?:octet\.){3}(?:octet)] *)
Definition quad : regex := Seq (Rep 3 (Seq octet (Chr "."))) octet.

(** [/^(?:(?:25[0-5]|2[0-4][0-9]|[01]?[0-9][0-9]?)\.){3}(?:25[0-5]|2[0-4][0-9]|[01]?[0-9][0-9]?)$/] *)
Definition ipv4_regex : regex := Seq Bol (Seq quad Eol).

Definition isValidIPv4 (ip : string) : bool := test ipv4_regex ip.

(** ** Strict dotted-quad syntax, as the specification words it:
    four dot-separated octets, each 0-255. *)

(** [str.split(".")] *)
Fixpoint split_dot (s : list ascii) : list (list ascii) :=
  match s with
  | [] => [[]]
  | c :: s' =>
      if Ascii.eqb c "." then [] :: split_dot s'
      else match split_dot s' with
           | w :: ws => (c :: w) :: ws
           | [] => [[c]]
           end
  end.

Definition is_digit (c : ascii) : bool :=
  (48 <=? char_code c) && (char_code c <=? 57).

Definition digit_value (c : ascii) : nat := char_code c - 48.

(** Value of a decimal numeral, most significant digit first. *)
Definition decimal_value (w : list ascii) : nat :=
  fold_left (fun acc c => 10 * acc + digit_value c) w 0.

(** An octet in text: one to three decimal digits denoting 0..255. *)
Definition octet_text (w : list ascii) : bool :=
  (1 <=? List.length w) && (List.length w <=? 3)
  && forallb is_digit w && (decimal_value w <=? 255).

Definition dotted_quad (str : string) : bool :=
  match split_dot (list_ascii_of_string str) with
  | [a; b; c; d] => octet_text a && octet_text b && octet_text c && octet_text d
  | _ => false
  end.

(** [parts.join(".")] *)
Fixpoint join_dot (ws : list (list ascii)) : list ascii :=
  match ws with
  | [] => []
  | [w] => w
  | w :: ws' => w ++ "." :: join_dot ws'
  end.

Definition dotless (w : list ascii) : Prop := Forall (fun x => x <> ".") w.

(** The character codes that the octet pattern names. *)
Ltac codes :=
  change (char_code "0") with 48 in *; change (char_code "1") with 49 in *;
  change (char_code "2") with 50 in *; change (char_code "4") with 52 in *;
  change (char_code "5") with 53 in *; change (char_code "9") with 57 in *.

Ltac all_digits :=
  repeat (apply Forall_cons; [codes; lia|]); apply Forall_nil.

(* ================================================================== *)
(** * JavaScript values and the MaxMind records *)
(* ================================================================== *)

Local Open Scope string_scope.
Local Open Scope nat_scope.

(** The values that the handler stores in the fields of its result.  A
    number is carried by its decimal text, which is what string
    interpolation and [JSON.stringify] print; reading a property that an
    object lacks gives [JUndefined]. *)
Inductive jsval : Type :=
| JUndefined
| JNull
| JString (s : string)
| JNumber (text : string).

(** [`${v}`] *)
Definition js_to_string (v : jsval) : string :=
  match v with
  | JUndefined => "undefined"
  | JNull => "null"
  | JString s => s
  | JNumber text => text
  end.

(** [str.replace(pat, rep)] with a string pattern: the first occurrence
    only. *)
Fixpoint replace (pat rep str : string) : string :=
  if String.prefix pat str
  then rep ++ String.substring (String.length pat)
                               (String.length str - String.length pat) str
  else match str with
       | EmptyString => EmptyString
       | String c rest => String c (replace pat rep rest)
       end.

(** An operation that returns or throws. *)
Inductive attempt (A : Type) : Type :=
| Done (a : A)
| Thrown (message : string).

Arguments Done {A} a.
Arguments Thrown {A} message.

(** [x; k]: [k] runs when [x] has not thrown. *)
Definition bind {A B : Type} (x : attempt A) (k : A -> attempt B)
  : attempt B :=
  match x with
  | Done a => k a
  | Thrown message => Thrown message
  end.

(** The records that a reader returns, with the properties the handler
    reads.  A property that may be missing is an [option]; that includes
    the [names] table of an entry, which the handler reads without a
    guard of its own. *)
Record Names : Type := { en : jsval }.

Module CountryRecord.
Record t : Type := { names : option Names; iso_code : jsval }.
End CountryRecord.

Module SubdivisionRecord.
Record t : Type := { names : option Names }.
End SubdivisionRecord.

Module CityRecord.
Record t : Type := { names : option Names }.
End CityRecord.

Module PostalRecord.
Record t : Type := { code : jsval }.
End PostalRecord.

Module LocationRecord.
Record t : Type :=
    { latitude : jsval; longitude : jsval; time_zone : jsval }.
End LocationRecord.

Module CityResponse.
Record t : Type :=
    { country : option CountryRecord.t;
      subdivisions : option (list SubdivisionRecord.t);
      city : option CityRecord.t;
      postal : option PostalRecord.t;
      location : option LocationRecord.t }.
End CityResponse.

Module CountryResponse.
Record t : Type := { country : option CountryRecord.t }.
End CountryResponse.

Module AsnResponse.
Record t : Type :=
    { autonomous_system_number : jsval;
      autonomous_system_organization : jsval }.
End AsnResponse.

(** An opened database: [reader.get(ip)] is the record or [null]. *)
Record Reader (T : Type) : Type := { get : string -> option T }.

Arguments get {T} _ _.

(** The three global handles of the server; [None] is [null]. *)
Record Databases : Type :=
  { ipCountryDB : option (Reader CountryResponse.t);
    ipCityDB : option (Reader CityResponse.t);
    ipAsnDB : option (Reader AsnResponse.t) }.

(* ================================================================== *)
(** * The lookup endpoint *)
(* ================================================================== *)

Record Coordinates : Type := { latitude : jsval; longitude : jsval }.

Record Location : Type :=
  { country : jsval;
    countryCode : jsval;
    region : jsval;
    city : jsval;
    zipCode : jsval;
    coordinates : Coordinates;
    timezone : jsval }.

Record Network : Type :=
  { isp : jsval; organization : jsval; asn : jsval; asName : jsval }.

Record Result : Type :=
  { statusCode : jsval;
    status : jsval;
    ip : jsval;
    location : Location;
    network : Network }.

Inductive Body : Type :=
| ErrorBody (error message : string)
| ResultBody (result : Result).

Record Response : Type := { http_status : nat; body : Body }.

(** One call of [get] on a reader. *)
Inductive DatabaseType : Type := DbCountry | DbCity | DbAsn.

Record Query : Type := { queried : DatabaseType; key : string }.

Record Request : Type :=
  { params_ip : option string;   (* req.params.ip *)
    req_ip : string }.           (* req.ip *)

(** [req.params.ip || req.ip.replace("::ffff:", empty)], where [empty] is
    the empty string. *)
Definition ipToLookup (req : Request) : string :=
  match params_ip req with
  | Some (String c s) => String c s
  | Some EmptyString | None => replace "::ffff:" EmptyString (req_ip req)
  end.

Definition default_location : Location :=
  {| country := JString "Unknown";
     countryCode := JString "XX";
     region := JString "Unknown";
     city := JString "Unknown";
     zipCode := JString "Unknown";
     coordinates := {| latitude := JNull; longitude := JNull |};
     timezone := JString "Unknown" |}.

Definition default_network : Network :=
  {| isp := JString "Unknown";
     organization := JString "Unknown";
     asn := JNull;
     asName := JString "Unknown" |}.

Definition default_result (ipToLookup : string) : Result :=
  {| statusCode := JNumber "200";
     status := JString "success";
     ip := JString ipToLookup;
     location := default_location;
     network := default_network |}.

(** Assignments to the fields of [result.location]. *)
Definition set_country (v : jsval) (l : Location) : Location :=
  {| country := v; countryCode := countryCode l; region := region l;
     city := city l; zipCode := zipCode l; coordinates := coordinates l;
     timezone := timezone l |}.

Definition set_countryCode (v : jsval) (l : Location) : Location :=
  {| country := country l; countryCode := v; region := region l;
     city := city l; zipCode := zipCode l; coordinates := coordinates l;
     timezone := timezone l |}.

Definition set_region (v : jsval) (l : Location) : Location :=
  {| country := country l; countryCode := countryCode l; region := v;
     city := city l; zipCode := zipCode l; coordinates := coordinates l;
     timezone := timezone l |}.

Definition set_city (v : jsval) (l : Location) : Location :=
  {| country := country l; countryCode := countryCode l; region := region l;
     city := v; zipCode := zipCode l; coordinates := coordinates l;
     timezone := timezone l |}.

Definition set_zipCode (v : jsval) (l : Location) : Location :=
  {| country := country l; countryCode := countryCode l; region := region l;
     city := city l; zipCode := v; coordinates := coordinates l;
     timezone := timezone l |}.

Definition set_coordinates (c : Coordinates) (l : Location) : Location :=
  {| country := country l; countryCode := countryCode l; region := region l;
     city := city l; zipCode := zipCode l; coordinates := c;
     timezone := timezone l |}.

Definition set_timezone (v : jsval) (l : Location) : Location :=
  {| country := country l; countryCode := countryCode l; region := region l;
     city := city l; zipCode := zipCode l; coordinates := coordinates l;
     timezone := v |}.

(** [if (x) { ... }] on an entry that may be missing. *)
Definition when {A B : Type} (x : option A) (f : A -> B -> B) (b : B) : B :=
  match x with
  | Some a => f a b
  | None => b
  end.

(** [if (x) { ... }] where the body may throw. *)
Definition when_try {A B : Type} (x : option A) (f : A -> B -> attempt B)
    (b : B) : attempt B :=
  match x with
  | Some a => f a b
  | None => Done b
  end.

(** [entry.names.en]: a [TypeError] when the entry has no [names]. *)
Definition read_en (names : option Names) : attempt jsval :=
  match names with
  | Some table => Done (en table)
  | None => Thrown "Cannot read properties of undefined (reading 'en')"
  end.

(** The branch [if (cityData) { ... }]: the location block, or the throw
    that ends the [try] block. *)
Definition apply_city (cityData : CityResponse.t) (l : Location)
  : attempt Location :=
  bind
    (when_try (CityResponse.country cityData)
       (fun c l =>
          bind (read_en (CountryRecord.names c))
            (fun name =>
               Done (set_countryCode (CountryRecord.iso_code c)
                       (set_country name l)))) l)
    (fun l =>
  bind
    (match CityResponse.subdivisions cityData with
     | Some (s0 :: _) =>
         bind (read_en (SubdivisionRecord.names s0))
           (fun name => Done (set_region name l))
     | Some [] | None => Done l
     end)
    (fun l =>
  bind
    (when_try (CityResponse.city cityData)
       (fun c l =>
          bind (read_en (CityRecord.names c))
            (fun name => Done (set_city name l))) l)
    (fun l =>
  let l :=
    when (CityResponse.postal cityData)
      (fun p l => set_zipCode (PostalRecord.code p) l) l in
  Done
    (when (CityResponse.location cityData)
       (fun loc l =>
          set_timezone (LocationRecord.time_zone loc)
            (set_coordinates
               {| latitude := LocationRecord.latitude loc;
                  longitude := LocationRecord.longitude loc |} l)) l)))).

(** The branch [if (countryData && countryData.country) { ... }]. *)
Definition apply_country (countryData : CountryResponse.t) (l : Location)
  : attempt Location :=
  when_try (CountryResponse.country countryData)
    (fun c l =>
       bind (read_en (CountryRecord.names c))
         (fun name =>
            Done (set_countryCode (CountryRecord.iso_code c)
                    (set_country name l)))) l.

(** The branch [if (asnData) { ... }]. *)
Definition apply_asn (asnData : AsnResponse.t) (n : Network) : Network :=
  {| asn := AsnResponse.autonomous_system_number asnData;
     organization := AsnResponse.autonomous_system_organization asnData;
     isp := AsnResponse.autonomous_system_organization asnData;
     asName :=
       JString
         ("AS" ++ js_to_string (AsnResponse.autonomous_system_number asnData))
  |}.

(** "Look up location data": the queries made, and the location block
    or the throw. *)
Definition lookup_location (db : Databases) (ipToLookup : string)
  : list Query * attempt Location :=
  match ipCityDB db with
  | Some cityDB =>
      ([ {| queried := DbCity; key := ipToLookup |} ],
       when_try (get cityDB ipToLookup) apply_city default_location)
  | None =>
      match ipCountryDB db with
      | Some countryDB =>
          ([ {| queried := DbCountry; key := ipToLookup |} ],
           when_try (get countryDB ipToLookup) apply_country
             default_location)
      | None => ([], Done default_location)
      end
  end.

(** "Look up ASN data": the queries made and the network block. *)
Definition lookup_network (db : Databases) (ipToLookup : string)
  : list Query * Network :=
  match ipAsnDB db with
  | Some asnDB =>
      ([ {| queried := DbAsn; key := ipToLookup |} ],
       when (get asnDB ipToLookup) apply_asn default_network)
  | None => ([], default_network)
  end.

Definition is_null {A : Type} (x : option A) : bool :=
  match x with
  | Some _ => false
  | None => true
  end.

(** [res.status(400).json({ error, message })] *)
Definition invalid_format : Response :=
  {| http_status := 400;
     body := ErrorBody "Invalid IP address format"
                       "Please provide a valid IPv4 address." |}.

(** [res.status(503).json({ error, message })] *)
Definition unavailable : Response :=
  {| http_status := 503;
     body := ErrorBody "Service unavailable"
               "IP databases are not loaded. Please check server configuration." |}.

(** [res.json(result)] *)
Definition ok (result : Result) : Response :=
  {| http_status := 200; body := ResultBody result |}.

(** [res.status(500).json({ error, message })], in the [catch] block. *)
Definition server_error : Response :=
  {| http_status := 500;
     body := ErrorBody "Server error" "Failed to perform IP lookup" |}.

(** The handler of [GET /api/lookup/:ip?]: the queries it makes on the
    readers, in order, and the response it sends.  A throw in the
    location block ends the [try] block: the ASN reader is not queried
    and the [catch] block answers 500. *)
Definition lookup (db : Databases) (req : Request) : list Query * Response :=
  let ipToLookup := ipToLookup req in
  if negb (isValidIPv4 ipToLookup) then ([], invalid_format)
  else if is_null (ipCityDB db) && is_null (ipCountryDB db)
          && is_null (ipAsnDB db) then ([], unavailable)
  else
    match lookup_location db ipToLookup with
    | (q1, Thrown _) => (q1, server_error)
    | (q1, Done loc) =>
        let '(q2, net) := lookup_network db ipToLookup in
        ((q1 ++ q2)%list,
         ok {| statusCode := JNumber "200";
               status := JString "success";
               ip := JString ipToLookup;
               location := loc;
               network := net |})
    end.

(** ** What [res.json(result)] sends *)

Inductive json : Type :=
| JsonNull
| JsonString (s : string)
| JsonNumber (text : string)
| JsonObject (members : list (string * json)).

(** [JSON.stringify] leaves out a property whose value is [undefined]. *)
Definition member (name : string) (v : jsval) : list (string * json) :=
  match v with
  | JUndefined => []
  | JNull => [(name, JsonNull)]
  | JString s => [(name, JsonString s)]
  | JNumber text => [(name, JsonNumber text)]
  end.

Definition json_of_result (r : Result) : json :=
  (JsonObject
    (member "statusCode" (statusCode r) ++ member "status" (status r)
     ++ member "ip" (ip r)
     ++ [("location",
          JsonObject
            (member "country" (country (location r))
             ++ member "countryCode" (countryCode (location r))
             ++ member "region" (region (location r))
             ++ member "city" (city (location r))
             ++ member "zipCode" (zipCode (location r))
             ++ [("coordinates",
                  JsonObject
                    (member "latitude"
                       (latitude (coordinates (location r)))
                     ++ member "longitude"
                          (longitude (coordinates (location r)))))]
             ++ member "timezone" (timezone (location r))));
         ("network",
          JsonObject
            (member "isp" (isp (network r))
             ++ member "organization" (organization (network r))
             ++ member "asn" (asn (network r))
             ++ member "asName" (asName (network r))))]))%list.

(** The field shape of a JSON value: its member names, nested. *)
Inductive shape : Type :=
| Leaf
| Node (members : list (string * shape)).

Fixpoint shape_of (j : json) : shape :=
  match j with
  | JsonObject members =>
      Node ((fix go (l : list (string * json)) : list (string * shape) :=
               match l with
               | [] => []
               | (name, v) :: rest => (name, shape_of v) :: go rest
               end) members)
  | _ => Leaf
  end.

(* ================================================================== *)
(** * The refresh script *)
(* ================================================================== *)

(** The data directory is a list of entries, in the order in which
    [readdirSync] lists them. *)
Inductive entry : Type :=
| File (name : string) (data : string)
| Dir (name : string) (items : list entry).

Definition entry_name (e : entry) : string :=
  match e with
  | File name _ => name
  | Dir name _ => name
  end.

Section EntryInduction.

Variable P : entry -> Prop.
Hypothesis file_case : forall name data, P (File name data).
Hypothesis dir_case : forall name items, Forall P items -> P (Dir name items).

(** Induction on a directory tree, with the property for every item of a
    directory. *)
Fixpoint entry_induction (e : entry) : P e :=
  match e with
  | File name data => file_case name data
  | Dir name items =>
      @dir_case name items
        ((fix all (l : list entry) : Forall P l :=
            match l with
            | [] => Forall_nil P
            | x :: rest => @Forall_cons _ P x rest (entry_induction x) (all rest)
            end) items)
  end.

End EntryInduction.

(** A path below [DATA_DIR], one name per level. *)
Definition path : Type := list string.

(** [path.join(dir, item)] *)
Definition join (dir : path) (item : string) : path := (dir ++ [item])%list.

(** [item.endsWith(suffix)] *)
Definition endsWith (item suffix : string) : bool :=
  (String.length suffix <=? String.length item)
  && String.eqb
       (String.substring (String.length item - String.length suffix)
                         (String.length suffix) item)
       suffix.

(** The body of the loop of [findMmdbFile] on one item of [dir]:
    [Some] is a [return], [None] goes on to the next item. *)
Fixpoint visit (dir : path) (e : entry) : option path :=
  match e with
  | Dir item sub =>
      let itemPath := join dir item in
      (fix each (items : list entry) : option path :=
         match items with
         | [] => None
         | e' :: rest =>
             match visit itemPath e' with
             | Some nestedResult => Some nestedResult
             | None => each rest
             end
         end) sub
  | File item _ =>
      if endsWith item ".mmdb" then Some (join dir item) else None
  end.

(** [findMmdbFile(dir)], where [items] is what [dir] holds. *)
Fixpoint findMmdbFile (dir : path) (items : list entry) : option path :=
  match items with
  | [] => None
  | e :: rest =>
      match visit dir e with
      | Some found => Some found
      | None => findMmdbFile dir rest
      end
  end.

(** ** The file system calls, on the entries of [DATA_DIR] *)

Fixpoint lookup_entry (name : string) (fs : list entry) : option entry :=
  match fs with
  | [] => None
  | e :: rest =>
      if String.eqb (entry_name e) name then Some e else lookup_entry name rest
  end.

Fixpoint read_path (p : path) (fs : list entry) : option entry :=
  match p with
  | [] => None
  | [name] => lookup_entry name fs
  | name :: below =>
      match lookup_entry name fs with
      | Some (Dir _ items) => read_path below items
      | _ => None
      end
  end.

Definition existsSync (name : string) (fs : list entry) : bool :=
  negb (is_null (lookup_entry name fs)).

Definition remove_entry (name : string) (fs : list entry) : list entry :=
  filter (fun e => negb (String.eqb (entry_name e) name)) fs.

(** Put [e] where an entry of its name is, or at the end. *)
Fixpoint put_entry (e : entry) (fs : list entry) : list entry :=
  match fs with
  | [] => [e]
  | e' :: rest =>
      if String.eqb (entry_name e') (entry_name e) then e :: rest
      else e' :: put_entry e rest
  end.

Definition writeFileSync (name data : string) (fs : list entry)
  : attempt (list entry) :=
  match lookup_entry name fs with
  | Some (Dir _ _) => Thrown "EISDIR: illegal operation on a directory"
  | _ => Done (put_entry (File name data) fs)
  end.

Definition mkdirSync (name : string) (fs : list entry) : list entry :=
  put_entry (Dir name []) fs.

Definition unlinkSync (name : string) (fs : list entry)
  : attempt (list entry) :=
  match lookup_entry name fs with
  | Some (File _ _) => Done (remove_entry name fs)
  | Some (Dir _ _) => Thrown "EISDIR: illegal operation on a directory"
  | None => Thrown "ENOENT: no such file or directory"
  end.

(** [fs.rmSync(name, { recursive: true, force: true })] *)
Definition rmSync (name : string) (fs : list entry) : list entry :=
  remove_entry name fs.

Definition copyFileSync (src : path) (dest : string) (fs : list entry)
  : attempt (list entry) :=
  match read_path src fs with
  | Some (File _ data) => writeFileSync dest data fs
  | _ => Thrown "ENOENT: no such file or directory"
  end.

(** [type.charAt(0).toUpperCase() + type.slice(1)] *)
Definition to_upper (c : ascii) : ascii :=
  if (97 <=? char_code c) && (char_code c <=? 122)
  then ascii_of_nat (char_code c - 32) else c.

Definition capitalize (type : string) : string :=
  match type with
  | EmptyString => EmptyString
  | String c rest => String (to_upper c) rest
  end.

Definition tempFile_of (type : string) : string := type ++ ".tar.gz".
Definition tempDir_of (type : string) : string := "temp_" ++ type.
Definition destPath_of (type : string) : string :=
  "GeoLite2-" ++ capitalize type ++ ".mmdb".

(** [`Could not find .mmdb file for ${type}`] *)
Definition payload_not_found (type : string) : string :=
  "Could not find .mmdb file for " ++ type.

(** How one run of the job ends: the [try] block completed, the [catch]
    block logged the error, or the [catch] block itself threw. *)
Inductive Outcome : Type :=
| Updated
| Failed (message : string)
| Rejected (message : string).

Section Refresh.

(** [tar.extract({ file, cwd })]: from the bytes of the archive and what
    the directory [cwd] holds, what it holds afterwards, or a rejection. *)
Variable tar_extract : string -> list entry -> attempt (list entry).

(** The [try] block of [downloadAndExtractDatabase]: the file system at
    the point where the block ends, and whether it threw.  [response] is
    what the download gives. *)
Definition try_block (type : string) (response : attempt string)
  (fs : list entry) : list entry * attempt unit :=
  let tempFile := tempFile_of type in
  match response with
  | Thrown message => (fs, Thrown message)
  | Done data =>
      match writeFileSync tempFile data fs with
      | Thrown message => (fs, Thrown message)
      | Done fs1 =>
          let tempDir := tempDir_of type in
          let fs2 :=
            if existsSync tempDir fs1 then fs1 else mkdirSync tempDir fs1 in
          match
            (match lookup_entry tempDir fs2 with
             | Some (Dir _ items) => tar_extract data items
             | _ => Thrown "ENOTDIR: not a directory"
             end)
          with
          | Thrown message => (fs2, Thrown message)
          | Done items =>
              let fs3 := put_entry (Dir tempDir items) fs2 in
              match findMmdbFile [tempDir] items with
              | None =>
                  (fs3, Thrown (payload_not_found type))
              | Some mmdbFilePath =>
                  match copyFileSync mmdbFilePath (destPath_of type) fs3 with
                  | Thrown message => (fs3, Thrown message)
                  | Done fs4 =>
                      match unlinkSync tempFile fs4 with
                      | Thrown message => (fs4, Thrown message)
                      | Done fs5 => (rmSync tempDir fs5, Done tt)
                      end
                  end
              end
          end
      end
  end.

(** [downloadAndExtractDatabase(type, url)] *)
Definition downloadAndExtractDatabase (type : string)
  (response : attempt string) (fs : list entry) : list entry * Outcome :=
  match try_block type response fs with
  | (fs', Done _) => (fs', Updated)
  | (fs', Thrown message) =>
      if existsSync (tempFile_of type) fs' then
        match unlinkSync (tempFile_of type) fs' with
        | Done fs'' => (fs'', Failed message)
        | Thrown message' => (fs', Rejected message')
        end
      else (fs', Failed message)
  end.

(** [updateAllDatabases()]: the three jobs in turn; a rejected job ends
    the process with exit code 1. *)
Definition updateAllDatabases (responses : string -> attempt string)
  (fs : list entry) : list entry * nat :=
  match downloadAndExtractDatabase "country" (responses "country") fs with
  | (fs1, Rejected _) => (fs1, 1)
  | (fs1, _) =>
      match downloadAndExtractDatabase "city" (responses "city") fs1 with
      | (fs2, Rejected _) => (fs2, 1)
      | (fs2, _) =>
          match downloadAndExtractDatabase "asn" (responses "asn") fs2 with
          | (fs3, Rejected _) => (fs3, 1)
          | (fs3, _) => (fs3, 0)
          end
      end
  end.

End Refresh.

(** The [.mmdb] files below [dir], in the order of a depth-first walk. *)
Fixpoint payloads_of (dir : path) (e : entry) : list path :=
  match e with
  | Dir item sub =>
      let itemPath := join dir item in
      (fix each (items : list entry) : list path :=
         match items with
         | [] => []
         | e' :: rest => (payloads_of itemPath e' ++ each rest)%list
         end) sub
  | File item _ => if endsWith item ".mmdb" then [join dir item] else []
  end.

Fixpoint payloads (dir : path) (items : list entry) : list path :=
  match items with
  | [] => []
  | e :: rest => (payloads_of dir e ++ payloads dir rest)%list
  end.

(* ================================================================== *)
(** * Vocabulary of the statements *)
(* ================================================================== *)

(** At least one of the three handles is loaded. *)
Definition loaded (db : Databases) : bool :=
  negb (is_null (ipCityDB db) && is_null (ipCountryDB db)
        && is_null (ipAsnDB db)).

(** What a reader, if loaded, answers for one address. *)
Definition answer {T : Type} (handle : option (Reader T)) (ip : string)
  : option (option T) :=
  option_map (fun reader => get reader ip) handle.


Definition populated_from (c : CountryRecord.t) (l : Location) : Prop :=
  exists table,
    CountryRecord.names c = Some table
    /\ country l = en table
    /\ countryCode l = CountryRecord.iso_code c.

Definition city_fields_default (l : Location) : Prop :=
  city l = JString "Unknown" /\ zipCode l = JString "Unknown"
  /\ coordinates l = {| latitude := JNull; longitude := JNull |}
  /\ region l = JString "Unknown" /\ timezone l = JString "Unknown".

(** The country fallback as the specification words it: with the country
    handle alone, the city fields keep their defaults and every hit
    fills the country name and code from the country entry of the
    record. *)
Definition country_fallback_claim (db : Databases) (req : Request) : Prop :=
  isValidIPv4 (ipToLookup req) = true ->
  ipCityDB db = None ->
  forall countryDB, ipCountryDB db = Some countryDB ->
  exists r,
    snd (lookup db req) = ok r
    /\ city_fields_default (location r)
    /\ forall rec, get countryDB (ipToLookup req) = Some rec ->
         exists c, CountryResponse.country rec = Some c
                   /\ populated_from c (location r).

(** The shape of a successful response as the specification words it:
    the members sent are those of the default record. *)
Definition uniform_shape_claim (db : Databases) (req : Request) : Prop :=
  forall r,
    snd (lookup db req) = ok r ->
    shape_of (json_of_result r)
    = shape_of (json_of_result (default_result (ipToLookup req))).


(** The clean-up as the specification words it: after a run, neither the
    scratch archive nor the scratch directory is left. *)
Definition scratch_removed_claim
    (tar_extract : string -> list entry -> attempt (list entry))
    (type : string) (response : attempt string) (fs : list entry) : Prop :=
  existsSync (tempFile_of type)
    (fst (downloadAndExtractDatabase tar_extract type response fs)) = false
  /\ existsSync (tempDir_of type)
       (fst (downloadAndExtractDatabase tar_extract type response fs)) = false.

(** What holds of the data directory from the point where the archive
    has been saved and the scratch directory exists. *)
Definition scratch_present (type : string) (fs : list entry) : Prop :=
  (exists data, lookup_entry (tempFile_of type) fs
                = Some (File (tempFile_of type) data))
  /\ existsSync (tempDir_of type) fs = true.

(* ================================================================== *)
(** * Sample databases and archives *)
(* ================================================================== *)

Module Examples.

Definition reader_of {T : Type} (ip : string) (rec : T) : Reader T :=
  {| get := fun k => if String.eqb k ip then Some rec else None |}.

Definition request_for (ip : string) : Request :=
  {| params_ip := Some ip; req_ip := "::ffff:127.0.0.1" |}.

Definition named (s : string) : option Names := Some {| en := JString s |}.

Definition united_states : CountryRecord.t :=
  {| CountryRecord.names := named "United States";
     CountryRecord.iso_code := JString "US" |}.

Definition country_hit : CountryResponse.t :=
  {| CountryResponse.country := Some united_states |}.

(** A record with no [country] entry: a range known by its continent or
    by its registration only. *)
Definition country_hit_without_country : CountryResponse.t :=
  {| CountryResponse.country := None |}.

Definition city_hit : CityResponse.t :=
  {| CityResponse.country := Some united_states;
     CityResponse.subdivisions :=
       Some [ {| SubdivisionRecord.names := named "California" |} ];
     CityResponse.city := Some {| CityRecord.names := named "Mountain View" |};
     CityResponse.postal := Some {| PostalRecord.code := JString "94043" |};
     CityResponse.location :=
       Some {| LocationRecord.latitude := JNumber "37.4056";
               LocationRecord.longitude := JNumber "-122.0775";
               LocationRecord.time_zone := JString "America/Los_Angeles" |} |}.

(** A record whose [location] has coordinates and no [time_zone]. *)
Definition city_hit_without_time_zone : CityResponse.t :=
  {| CityResponse.country := Some united_states;
     CityResponse.subdivisions := None;
     CityResponse.city := None;
     CityResponse.postal := None;
     CityResponse.location :=
       Some {| LocationRecord.latitude := JNumber "37.751";
               LocationRecord.longitude := JNumber "-97.822";
               LocationRecord.time_zone := JUndefined |} |}.

Definition asn_hit : AsnResponse.t :=
  {| AsnResponse.autonomous_system_number := JNumber "15169";
     AsnResponse.autonomous_system_organization := JString "GOOGLE" |}.

Definition no_databases : Databases :=
  {| ipCountryDB := None; ipCityDB := None; ipAsnDB := None |}.

Definition country_only (rec : CountryResponse.t) : Databases :=
  {| ipCountryDB := Some (reader_of "8.8.8.8" rec);
     ipCityDB := None; ipAsnDB := None |}.

Definition city_only (rec : CityResponse.t) : Databases :=
  {| ipCountryDB := None;
     ipCityDB := Some (reader_of "8.8.8.8" rec);
     ipAsnDB := None |}.

Definition asn_only : Databases :=
  {| ipCountryDB := None; ipCityDB := None;
     ipAsnDB := Some (reader_of "8.8.8.8" asn_hit) |}.

Definition all_databases : Databases :=
  {| ipCountryDB := Some (reader_of "8.8.8.8" country_hit);
     ipCityDB := Some (reader_of "8.8.8.8" city_hit);
     ipAsnDB := Some (reader_of "8.8.8.8" asn_hit) |}.

(** The city reader has no record for 1.1.1.1, the country reader has
    one. *)
Definition city_miss_country_hit : Databases :=
  {| ipCountryDB := Some (reader_of "1.1.1.1" country_hit);
     ipCityDB := Some (reader_of "8.8.8.8" city_hit);
     ipAsnDB := Some (reader_of "8.8.8.8" asn_hit) |}.

(** A country entry without its [names] table. *)
Definition nameless_country : CountryRecord.t :=
  {| CountryRecord.names := None; CountryRecord.iso_code := JString "US" |}.

End Examples.

Module Archives.

(** The listings are in the order of [readdirSync], by name. *)
Definition without_payload : list entry :=
  [ Dir "GeoLite2-Country_20240102"
      [ File "COPYRIGHT.txt" "copyright"; File "LICENSE.txt" "license" ] ].

Definition with_two_payloads : list entry :=
  [ Dir "GeoLite2-Country_20240102"
      [ File "COPYRIGHT.txt" "copyright";
        File "GeoLite2-Country-old.mmdb" "payload of last week";
        File "GeoLite2-Country.mmdb" "payload of this week" ] ].

Definition with_one_payload : list entry :=
  [ Dir "GeoLite2-Country_20240102"
      [ File "COPYRIGHT.txt" "copyright";
        File "GeoLite2-Country.mmdb" "the payload";
        File "LICENSE.txt" "license" ] ].

(** Put [e] where an entry of its name is, or at its place in the order
    of the names. *)
Fixpoint place (e : entry) (cwd : list entry) : list entry :=
  match cwd with
  | [] => [e]
  | x :: rest =>
      if String.eqb (entry_name x) (entry_name e) then e :: rest
      else if String.ltb (entry_name e) (entry_name x) then e :: x :: rest
      else x :: place e rest
  end.

(** One member of an archive, extracted into [cwd]: a file replaces what
    has its name, a directory is merged into the directory of its
    name. *)
Fixpoint extract_member (e : entry) (cwd : list entry) : list entry :=
  match e with
  | File name data => place (File name data) cwd
  | Dir name members =>
      let below :=
        match lookup_entry name cwd with
        | Some (Dir _ items) => items
        | _ => []
        end in
      place
        (Dir name
           ((fix each (l : list entry) (acc : list entry) : list entry :=
               match l with
               | [] => acc
               | member :: rest => each rest (extract_member member acc)
               end) members below))
        cwd
  end.

Definition extract_members (members cwd : list entry) : list entry :=
  fold_left (fun acc member => extract_member member acc) members cwd.

(** A stand-in for [tar.extract] on three named archives; anything else
    is rejected as corrupt. *)
Definition tar_extract (data : string) (cwd : list entry)
  : attempt (list entry) :=
  if String.eqb data "archive without payload"
  then Done (extract_members without_payload cwd)
  else if String.eqb data "archive with two payloads"
  then Done (extract_members with_two_payloads cwd)
  else if String.eqb data "archive with one payload"
  then Done (extract_members with_one_payload cwd)
  else Thrown "TAR_BAD_ARCHIVE: Unrecognized archive format".

End Archives.

(* ================================================================== *)
(** * The server start, the status endpoints and the vocabulary of the
      further properties *)
(* ================================================================== *)

Local Open Scope list_scope.
Local Open Scope nat_scope.

(** The characters of an address: the digits and the dot. *)
Definition address_char (x : ascii) : Prop :=
  is_digit x = true \/ x = "."%char.


(** [handle ? "Loaded" : "Not loaded"] *)
Definition status_text {T : Type} (handle : option (Reader T)) : string :=
  match handle with
  | Some _ => "Loaded"
  | None => "Not loaded"
  end.

(** The object that [GET /] sends as [databaseStatus] and that
    [GET /admin/database/status] sends as [status]. *)
Definition databaseStatus (db : Databases) : list (string * string) :=
  [ ("country", status_text (ipCountryDB db));
    ("city", status_text (ipCityDB db));
    ("asn", status_text (ipAsnDB db)) ].

Definition defined (v : jsval) : Prop := v <> JUndefined.

(** Every property that the handler copies from a city record is there. *)
Definition city_leaves_defined (rec : CityResponse.t) : Prop :=
  (forall c, CityResponse.country rec = Some c ->
     (forall table, CountryRecord.names c = Some table -> defined (en table))
     /\ defined (CountryRecord.iso_code c))
  /\ (forall s rest table,
        CityResponse.subdivisions rec = Some (s :: rest) ->
        SubdivisionRecord.names s = Some table -> defined (en table))
  /\ (forall c table, CityResponse.city rec = Some c ->
        CityRecord.names c = Some table -> defined (en table))
  /\ (forall p, CityResponse.postal rec = Some p ->
        defined (PostalRecord.code p))
  /\ (forall l, CityResponse.location rec = Some l ->
        defined (LocationRecord.latitude l)
        /\ defined (LocationRecord.longitude l)
        /\ defined (LocationRecord.time_zone l)).

Definition country_leaves_defined (rec : CountryResponse.t) : Prop :=
  forall c, CountryResponse.country rec = Some c ->
    (forall table, CountryRecord.names c = Some table -> defined (en table))
    /\ defined (CountryRecord.iso_code c).

Definition asn_leaves_defined (rec : AsnResponse.t) : Prop :=
  defined (AsnResponse.autonomous_system_number rec)
  /\ defined (AsnResponse.autonomous_system_organization rec).

(** The readers of [db] answer [ip] with records that have every property
    that the handler copies. *)
Definition leaves_defined (db : Databases) (ip : string) : Prop :=
  (forall reader rec, ipCityDB db = Some reader -> get reader ip = Some rec ->
     city_leaves_defined rec)
  /\ (forall reader rec, ipCountryDB db = Some reader ->
        get reader ip = Some rec -> country_leaves_defined rec)
  /\ (forall reader rec, ipAsnDB db = Some reader -> get reader ip = Some rec ->
        asn_leaves_defined rec).

Definition location_defined (l : Location) : Prop :=
  defined (country l) /\ defined (countryCode l) /\ defined (region l)
  /\ defined (city l) /\ defined (zipCode l)
  /\ defined (latitude (coordinates l)) /\ defined (longitude (coordinates l))
  /\ defined (timezone l).

Definition network_defined (n : Network) : Prop :=
  defined (isp n) /\ defined (organization n) /\ defined (asn n)
  /\ defined (asName n).

Definition has_names (names : option Names) : bool := negb (is_null names).

(** Every entry of a city record from which the handler reads a name has
    its [names] table. *)
Definition city_names_present (rec : CityResponse.t) : bool :=
  match CityResponse.country rec with
  | Some c => has_names (CountryRecord.names c)
  | None => true
  end
  && match CityResponse.subdivisions rec with
     | Some (s :: _) => has_names (SubdivisionRecord.names s)
     | _ => true
     end
  && match CityResponse.city rec with
     | Some c => has_names (CityRecord.names c)
     | None => true
     end.

(** Each group of fields of [l] comes from its entry of the city record,
    or is at its default when the entry is missing. *)
Definition city_fields_from (rec : CityResponse.t) (l : Location) : Prop :=
  match CityResponse.country rec with
  | Some c => populated_from c l
  | None => country l = JString "Unknown" /\ countryCode l = JString "XX"
  end
  /\ match CityResponse.subdivisions rec with
     | Some (s :: _) =>
         exists table,
           SubdivisionRecord.names s = Some table /\ region l = en table
     | _ => region l = JString "Unknown"
     end
  /\ match CityResponse.city rec with
     | Some c =>
         exists table, CityRecord.names c = Some table /\ city l = en table
     | None => city l = JString "Unknown"
     end
  /\ zipCode l
     = match CityResponse.postal rec with
       | Some p => PostalRecord.code p
       | None => JString "Unknown"
       end
  /\ coordinates l
     = match CityResponse.location rec with
       | Some loc => {| latitude := LocationRecord.latitude loc;
                        longitude := LocationRecord.longitude loc |}
       | None => {| latitude := JNull; longitude := JNull |}
       end
  /\ timezone l
     = match CityResponse.location rec with
       | Some loc => LocationRecord.time_zone loc
       | None => JString "Unknown"
       end.

(** [maxmind.open(path)]: what it makes of the bytes of a file, for each
    of the three kinds of reader. *)
Record Opener : Type :=
  { open_country : string -> attempt (Reader CountryResponse.t);
    open_city : string -> attempt (Reader CityResponse.t);
    open_asn : string -> attempt (Reader AsnResponse.t) }.

Definition countryDbPath : string := "GeoLite2-Country.mmdb".
Definition cityDbPath : string := "GeoLite2-City.mmdb".
Definition asnDbPath : string := "GeoLite2-ASN.mmdb".

(** [if (fs.existsSync(p)) { handle = await maxmind.open(p) } else { warn }]:
    the reader to assign, if any, or a throw. *)
Definition open_if_exists {T : Type} (parse : string -> attempt (Reader T))
    (name : string) (fs : list entry) : attempt (option (Reader T)) :=
  match lookup_entry name fs with
  | None => Done None
  | Some (File _ data) =>
      match parse data with
      | Done reader => Done (Some reader)
      | Thrown message => Thrown message
      end
  | Some (Dir _ _) => Thrown "EISDIR: illegal operation on a directory, read"
  end.

Definition assign {T : Type} (new old : option (Reader T))
  : option (Reader T) :=
  match new with
  | Some reader => Some reader
  | None => old
  end.

(** [initDatabases()]: the three handles after it, from the handles
    before it and the data directory.  A throw ends the [try] block:
    what was assigned stays, the rest is not attempted. *)
Definition initDatabases (o : Opener) (fs : list entry) (db : Databases)
  : Databases :=
  match open_if_exists (open_country o) countryDbPath fs with
  | Thrown _ => db
  | Done country =>
      let db1 := {| ipCountryDB := assign country (ipCountryDB db);
                    ipCityDB := ipCityDB db;
                    ipAsnDB := ipAsnDB db |} in
      match open_if_exists (open_city o) cityDbPath fs with
      | Thrown _ => db1
      | Done city =>
          let db2 := {| ipCountryDB := ipCountryDB db1;
                        ipCityDB := assign city (ipCityDB db1);
                        ipAsnDB := ipAsnDB db1 |} in
          match open_if_exists (open_asn o) asnDbPath fs with
          | Thrown _ => db2
          | Done asn =>
              {| ipCountryDB := ipCountryDB db2;
                 ipCityDB := ipCityDB db2;
                 ipAsnDB := assign asn (ipAsnDB db2) |}
          end
      end
  end.

(** The handles before [initDatabases()] has run. *)
Definition not_initialized : Databases :=
  {| ipCountryDB := None; ipCityDB := None; ipAsnDB := None |}.

(** [name] holds a file that [parse] opens as [reader]. *)
Definition opens_as {T : Type} (parse : string -> attempt (Reader T))
    (name : string) (fs : list entry) (reader : Reader T) : Prop :=
  exists data,
    lookup_entry name fs = Some (File name data) /\ parse data = Done reader.

(** The two directories hold the same thing under every name that is not
    in [names]. *)
Definition same_outside (names : list string) (fs fs' : list entry) : Prop :=
  forall name, ~ In name names -> lookup_entry name fs' = lookup_entry name fs.

(** The names that the job of [type] may write or remove. *)
Definition job_names (type : string) : list string :=
  [tempFile_of type; tempDir_of type; destPath_of type].

(** No directory holds two entries of one name, as on a file system. *)
Fixpoint unique_entry (e : entry) : Prop :=
  match e with
  | File _ _ => True
  | Dir _ items =>
      NoDup (map entry_name items)
      /\ (fix all (l : list entry) : Prop :=
            match l with
            | [] => True
            | x :: rest => unique_entry x /\ all rest
            end) items
  end.

Definition unique_names (items : list entry) : Prop :=
  NoDup (map entry_name items) /\ Forall unique_entry items.

(** The bytes of the [.mmdb] files, in the order of [payloads]. *)
Fixpoint payload_data_of (e : entry) : list string :=
  match e with
  | Dir _ sub =>
      (fix each (items : list entry) : list string :=
         match items with
         | [] => []
         | e' :: rest => payload_data_of e' ++ each rest
         end) sub
  | File item data => if endsWith item ".mmdb" then [data] else []
  end.

Fixpoint payload_data (items : list entry) : list string :=
  match items with
  | [] => []
  | e :: rest => payload_data_of e ++ payload_data rest
  end.

(** What the search owes for [items] under [dir]: a path below [dir]
    that reads back as a file named [*.mmdb], the first one of the walk;
    or nothing when the walk meets none. *)
Definition search_result (dir : path) (items : list entry)
    (found : option path) : Prop :=
  match found with
  | Some p =>
      exists rel name pre data,
        p = dir ++ rel /\ rel <> []
        /\ read_path rel items = Some (File name data)
        /\ name = (pre ++ ".mmdb")%string
        /\ last rel EmptyString = name
        /\ hd_error (payload_data items) = Some data
  | None => payload_data items = []
  end.

(** No directory sits where the job of [type] saves its archive. *)
Definition archive_slot_free (type : string) (fs : list entry) : Prop :=
  forall n l, lookup_entry (tempFile_of type) fs <> Some (Dir n l).

(** The two directories hold the same thing under every name of
    [names]. *)
Definition agree_on (names : list string) (fs fs' : list entry) : Prop :=
  forall name, In name names -> lookup_entry name fs = lookup_entry name fs'.

(** A directory sits where the job of [type] saves its archive. *)
Definition slot_taken (type : string) (fs : list entry) : bool :=
  match lookup_entry (tempFile_of type) fs with
  | Some (Dir _ _) => true
  | _ => false
  end.

Module Disk.

(** A stand-in for [maxmind.open]: the payload of the sample archives
    opens as the sample readers, anything else does not parse. *)
Definition opener : Opener :=
  {| open_country := fun data =>
       if String.eqb data "the payload"
       then Done (Examples.reader_of "8.8.8.8" Examples.country_hit)
       else Thrown "Unknown type NaN at offset 0";
     open_city := fun data =>
       if String.eqb data "the payload"
       then Done (Examples.reader_of "8.8.8.8" Examples.city_hit)
       else Thrown "Unknown type NaN at offset 0";
     open_asn := fun data =>
       if String.eqb data "the payload"
       then Done (Examples.reader_of "8.8.8.8" Examples.asn_hit)
       else Thrown "Unknown type NaN at offset 0" |}.

(** A data directory whose country file is cut short. *)
Definition truncated_country : list entry :=
  [ File "GeoLite2-Country.mmdb" "the payl";
    File "GeoLite2-City.mmdb" "the payload";
    File "GeoLite2-ASN.mmdb" "the payload" ].

Definition every_download_fails (type : string) : attempt string :=
  Thrown "Request failed with status code 401".

Definition every_download_succeeds (type : string) : attempt string :=
  Done "archive with one payload".

End Disk.

(* ================================================================== *)
(** * The matcher and the languages *)
(* ================================================================== *)

Local Open Scope char_scope.
Local Open Scope list_scope.
Local Open Scope nat_scope.

Section RegexFacts.

Lemma rmatch_lang (r : regex) :
  pure r = true ->
  forall i s k,
    rmatch r i s k = true <->
    exists u v, s = u ++ v /\ lang r u /\ k (i + List.length u) v = true.
Proof.
  induction r as [ | | c | rs | r1 IH1 r2 IH2 | r1 IH1 r2 IH2 | r1 IH1 | n r1 IH1];
    simpl; intros Hp i s k; try discriminate.
  - (* Chr *)
    split.
    + destruct s as [|x s']; [discriminate|].
      intros H. apply andb_true_iff in H. destruct H as [Hx Hk].
      apply Ascii.eqb_eq in Hx. subst x.
      exists [c], s'. simpl. rewrite Nat.add_1_r. auto.
    + intros (u & v & -> & -> & Hk). simpl.
      rewrite Ascii.eqb_refl. simpl in Hk. rewrite Nat.add_1_r in Hk. exact Hk.
  - (* Class *)
    split.
    + destruct s as [|x s']; [discriminate|].
      intros H. apply andb_true_iff in H. destruct H as [Hx Hk].
      exists [x], s'. simpl. rewrite Nat.add_1_r. eauto.
    + intros (u & v & -> & (x & -> & Hx) & Hk). simpl.
      rewrite Hx. simpl in Hk. rewrite Nat.add_1_r in Hk. exact Hk.
  - (* Seq *)
    apply andb_true_iff in Hp. destruct Hp as [Hp1 Hp2].
    rewrite (IH1 Hp1). split.
    + intros (u & v & -> & Hu & Hk). apply (IH2 Hp2) in Hk.
      destruct Hk as (u' & v' & -> & Hu' & Hk).
      exists (u ++ u'), v'. rewrite <- app_assoc, length_app, Nat.add_assoc.
      split; [reflexivity|]. split; [|exact Hk]. exists u, u'. auto.
    + intros (w & v' & -> & (u & u' & -> & Hu & Hu') & Hk).
      exists u, (u' ++ v'). rewrite <- app_assoc. split; [reflexivity|].
      split; [exact Hu|]. apply (IH2 Hp2). exists u', v'.
      rewrite length_app, Nat.add_assoc in Hk. auto.
  - (* Alt *)
    apply andb_true_iff in Hp. destruct Hp as [Hp1 Hp2].
    rewrite orb_true_iff, (IH1 Hp1), (IH2 Hp2). split.
    + intros [(u & v & H & Hu & Hk)|(u & v & H & Hu & Hk)]; exists u, v; auto.
    + intros (u & v & H & [Hu|Hu] & Hk); [left|right]; exists u, v; auto.
  - (* Opt *)
    rewrite orb_true_iff, (IH1 Hp). split.
    + intros [(u & v & H & Hu & Hk)|Hk].
      * exists u, v; auto.
      * exists [], s. simpl. rewrite Nat.add_0_r. auto.
    + intros (u & v & H & [->|Hu] & Hk).
      * right. simpl in *. subst s. rewrite Nat.add_0_r in Hk. exact Hk.
      * left. exists u, v; auto.
  - (* Rep *)
    revert i s. induction n as [|n IHn]; intros i s.
    + simpl. split.
      * intros Hk. exists [], s. simpl. rewrite Nat.add_0_r. auto.
      * intros (u & v & -> & -> & Hk). simpl in *.
        rewrite Nat.add_0_r in Hk. exact Hk.
    + change (rmatch r1 i s (fun j t => rmatch (Rep n r1) j t k) = true <->
              (exists u v, s = u ++ v /\ power (lang r1) (S n) u
                           /\ k (i + List.length u) v = true)).
      rewrite (IH1 Hp). simpl. split.
      * intros (u & v & -> & Hu & Hk). apply IHn in Hk.
        destruct Hk as (u' & v' & -> & Hu' & Hk).
        exists (u ++ u'), v'. rewrite <- app_assoc, length_app, Nat.add_assoc.
        split; [reflexivity|]. split; [|exact Hk]. exists u, u'. auto.
      * intros (w & v' & -> & (u & u' & -> & Hu & Hu') & Hk).
        exists u, (u' ++ v'). rewrite <- app_assoc. split; [reflexivity|].
        split; [exact Hu|]. apply IHn. exists u', v'.
        rewrite length_app, Nat.add_assoc in Hk. auto.
Qed.

End RegexFacts.

Lemma search_bol_later (r : regex) (s : list ascii) (i : nat) :
  search (Seq Bol r) (S i) s = false.
Proof.
  revert i. induction s as [|x s IH]; intros i; simpl; [reflexivity|].
  apply IH.
Qed.

Lemma test_anchored (r : regex) (str : string) :
  pure r = true ->
  (test (Seq Bol (Seq r Eol)) str = true <-> lang r (list_ascii_of_string str)).
Proof.
  intros Hp. unfold test.
  set (s := list_ascii_of_string str).
  assert (Hs : search (Seq Bol (Seq r Eol)) 0 s
               = rmatch r 0 s (fun _ t => match t with [] => true | _ :: _ => false end)).
  { destruct s as [|x s']; simpl.
    - rewrite orb_false_r. reflexivity.
    - rewrite (search_bol_later (Seq r Eol) s' 0), orb_false_r. reflexivity. }
  rewrite Hs, (rmatch_lang r Hp). split.
  - intros (u & v & -> & Hu & Hv). destruct v; [|discriminate].
    rewrite app_nil_r. exact Hu.
  - intros H. exists s, []. rewrite app_nil_r. auto.
Qed.

Lemma in_class_one (lo hi x : ascii) :
  in_class [(lo, hi)] x = true <->
  char_code lo <= char_code x <= char_code hi.
Proof.
  unfold in_class, in_range. simpl. rewrite orb_false_r, andb_true_iff.
  rewrite !Nat.leb_le. tauto.
Qed.

Lemma in_class_two (a b x : ascii) :
  in_class [(a, a); (b, b)] x = true <->
  char_code x = char_code a \/ char_code x = char_code b.
Proof.
  unfold in_class, in_range. simpl.
  rewrite orb_false_r, orb_true_iff, !andb_true_iff, !Nat.leb_le. lia.
Qed.

Lemma char_code_inj (x y : ascii) : char_code x = char_code y -> x = y.
Proof.
  unfold char_code. intros H.
  rewrite <- (ascii_nat_embedding x), <- (ascii_nat_embedding y), H.
  reflexivity.
Qed.

Lemma is_digit_iff (x : ascii) : is_digit x = true <-> 48 <= char_code x <= 57.
Proof. unfold is_digit. rewrite andb_true_iff, !Nat.leb_le. tauto. Qed.

Lemma decimal_value_1 a : decimal_value [a] = digit_value a.
Proof. unfold decimal_value. simpl. lia. Qed.

Lemma decimal_value_2 a b : decimal_value [a; b] = 10 * digit_value a + digit_value b.
Proof. unfold decimal_value. simpl. lia. Qed.

Lemma decimal_value_3 a b c :
  decimal_value [a; b; c] = 100 * digit_value a + 10 * digit_value b + digit_value c.
Proof. unfold decimal_value. simpl. lia. Qed.

Lemma octet_text_iff (w : list ascii) :
  octet_text w = true <->
  (1 <= List.length w <= 3 /\ Forall (fun x => 48 <= char_code x <= 57) w
   /\ decimal_value w <= 255).
Proof.
  unfold octet_text. rewrite !andb_true_iff, !Nat.leb_le, forallb_forall, Forall_forall.
  split.
  - intros [[[H1 H2] H3] H4]. repeat split; auto; apply is_digit_iff; auto.
  - intros [[H1 H2] [H3 H4]]. repeat split; auto. intros x Hx. apply is_digit_iff. auto.
Qed.

Lemma octet_sound (w : list ascii) : lang octet w -> octet_text w = true.
Proof.
  intros H. apply octet_text_iff. simpl in H.
  destruct H as [H | [H | H]].
  - destruct H as (u & v & -> & -> & (u' & v' & -> & -> & (x & -> & Hx))).
    apply in_class_one in Hx. codes. simpl.
    repeat split; try lia.
    + all_digits.
    + rewrite decimal_value_3. unfold digit_value. codes. lia.
  - destruct H as (u & v & -> & -> & (u' & v' & -> & (x & -> & Hx) & (y & -> & Hy))).
    apply in_class_one in Hx, Hy. codes. simpl.
    repeat split; try lia.
    + all_digits.
    + rewrite decimal_value_3. unfold digit_value. codes. lia.
  - destruct H as (u & v & -> & Hu & (u' & v' & -> & (y & -> & Hy) & Hv')).
    apply in_class_one in Hy. codes.
    destruct Hu as [-> | (x & -> & Hx)]; destruct Hv' as [-> | (z & -> & Hz)];
      try apply in_class_two in Hx; try apply in_class_one in Hz; codes; simpl.
    + repeat split; try lia; [all_digits|].
      rewrite decimal_value_1. unfold digit_value. lia.
    + repeat split; try lia; [all_digits|].
      rewrite decimal_value_2. unfold digit_value. lia.
    + repeat split; try lia; [all_digits|].
      rewrite decimal_value_2. unfold digit_value. lia.
    + repeat split; try lia; [all_digits|].
      rewrite decimal_value_3. unfold digit_value. lia.
Qed.

Lemma lang_digit (x : ascii) : 48 <= char_code x <= 57 -> lang digit [x].
Proof. intros H. exists x. split; [reflexivity|]. apply in_class_one. codes. lia. Qed.

Lemma octet_complete (w : list ascii) : octet_text w = true -> lang octet w.
Proof.
  intros H. apply octet_text_iff in H. destruct H as (Hlen & Hd & Hv).
  destruct w as [|a [|b [|c [|d w]]]]; simpl in Hlen; try lia.
  - (* one digit *)
    inversion_clear Hd as [|? ? Ha _].
    right. right. exists [], [a]. split; [reflexivity|]. split; [left; reflexivity|].
    exists [a], []. split; [reflexivity|]. split; [apply lang_digit; auto|left; reflexivity].
  - (* two digits *)
    inversion_clear Hd as [|? ? Ha Hd']. inversion_clear Hd' as [|? ? Hb _].
    right. right. exists [], [a; b]. split; [reflexivity|]. split; [left; reflexivity|].
    exists [a], [b]. split; [reflexivity|]. split; [apply lang_digit; auto|].
    right. apply lang_digit; auto.
  - (* three digits *)
    inversion_clear Hd as [|? ? Ha Hd']. inversion_clear Hd' as [|? ? Hb Hd''].
    inversion_clear Hd'' as [|? ? Hc _].
    rewrite decimal_value_3 in Hv. unfold digit_value in Hv.
    destruct (Nat.le_gt_cases (char_code a) 49) as [Ha1 | Ha2].
    + right. right. exists [a], [b; c]. split; [reflexivity|]. split.
      * right. exists a. split; [reflexivity|]. apply in_class_two. codes. lia.
      * exists [b], [c]. split; [reflexivity|]. split; [apply lang_digit; auto|].
        right. apply lang_digit; auto.
    + assert (Ea : a = "2") by (apply char_code_inj; codes; lia). subst a.
      destruct (Nat.le_gt_cases (char_code b) 52) as [Hb1 | Hb2].
      * right. left. exists ["2"], [b; c]. split; [reflexivity|]. split; [reflexivity|].
        exists [b], [c]. split; [reflexivity|]. split; [|apply lang_digit; auto].
        exists b. split; [reflexivity|]. apply in_class_one. codes. lia.
      * assert (Eb : b = "5") by (apply char_code_inj; codes; lia). subst b.
        left. exists ["2"], ["5"; c]. split; [reflexivity|]. split; [reflexivity|].
        exists ["5"], [c]. split; [reflexivity|]. split; [reflexivity|].
        exists c. split; [reflexivity|]. apply in_class_one. codes. lia.
Qed.

Lemma octet_iff (w : list ascii) : lang octet w <-> octet_text w = true.
Proof. split; [apply octet_sound | apply octet_complete]. Qed.

Lemma quad_iff (s : list ascii) :
  lang quad s <->
  exists a b c d,
    s = a ++ "." :: b ++ "." :: c ++ "." :: d
    /\ octet_text a = true /\ octet_text b = true
    /\ octet_text c = true /\ octet_text d = true.
Proof.
  unfold quad. change (lang (Seq (Rep 3 (Seq octet (Chr "."))) octet) s)
    with (exists u v, s = u ++ v /\ power (lang (Seq octet (Chr "."))) 3 u /\ lang octet v).
  split.
  - intros (u & d & -> & Hu & Hd).
    destruct Hu as (u1 & r1 & -> & (a & p1 & -> & Ha & ->) & Hu).
    destruct Hu as (u2 & r2 & -> & (b & p2 & -> & Hb & ->) & Hu).
    destruct Hu as (u3 & r3 & -> & (c & p3 & -> & Hc & ->) & ->).
    exists a, b, c, d. rewrite octet_iff in Ha, Hb, Hc, Hd.
    repeat split; auto.
    rewrite app_nil_r, <- !app_assoc. reflexivity.
  - intros (a & b & c & d & -> & Ha & Hb & Hc & Hd).
    rewrite <- octet_iff in Ha, Hb, Hc, Hd.
    exists ((a ++ ["."]) ++ (b ++ ["."]) ++ (c ++ ["."]) ++ []), d.
    split; [rewrite app_nil_r, <- !app_assoc; reflexivity|].
    split; [|exact Hd].
    assert (Hdot : forall w, lang octet w -> lang (Seq octet (Chr ".")) (w ++ ["."]))
      by (intros w Hw; exists w, ["."]; repeat split; auto).
    exists (a ++ ["."]), ((b ++ ["."]) ++ (c ++ ["."]) ++ []).
    split; [reflexivity|]. split; [auto|].
    exists (b ++ ["."]), ((c ++ ["."]) ++ []).
    split; [reflexivity|]. split; [auto|].
    exists (c ++ ["."]), [].
    split; [reflexivity|]. split; [auto|reflexivity].
Qed.

Lemma split_dot_not_nil (s : list ascii) : split_dot s <> [].
Proof.
  destruct s as [|x s]; simpl; [discriminate|].
  destruct (Ascii.eqb x "."); [discriminate|].
  destruct (split_dot s); discriminate.
Qed.

Lemma split_dot_dotless (w : list ascii) : dotless w -> split_dot w = [w].
Proof.
  induction 1 as [|x w Hx _ IH]; simpl; [reflexivity|].
  apply Ascii.eqb_neq in Hx. rewrite Hx, IH. reflexivity.
Qed.

Lemma split_dot_app (w rest : list ascii) :
  dotless w -> split_dot (w ++ "." :: rest) = w :: split_dot rest.
Proof.
  induction 1 as [|x w Hx _ IH]; simpl; [reflexivity|].
  apply Ascii.eqb_neq in Hx. rewrite Hx, IH. reflexivity.
Qed.

Lemma join_split_dot (s : list ascii) : join_dot (split_dot s) = s.
Proof.
  induction s as [|x s IH]; simpl; [reflexivity|].
  pose proof (split_dot_not_nil s) as Hn.
  destruct (split_dot s) as [|w ws]; [congruence|].
  destruct (Ascii.eqb x ".") eqn:Ex.
  - apply Ascii.eqb_eq in Ex. subst x.
    change (join_dot ([] :: w :: ws)) with ("." :: join_dot (w :: ws)).
    rewrite IH. reflexivity.
  - destruct ws as [|w' ws]; simpl in *; rewrite IH; reflexivity.
Qed.

Lemma octet_text_dotless (w : list ascii) : octet_text w = true -> dotless w.
Proof.
  intros H. apply octet_text_iff in H. destruct H as (_ & Hd & _).
  unfold dotless. eapply Forall_impl; [|exact Hd].
  intros x Hx ->. change (char_code ".") with 46 in Hx. lia.
Qed.

Lemma isValidIPv4_iff (str : string) :
  isValidIPv4 str = true <-> dotted_quad str = true.
Proof.
  unfold isValidIPv4, ipv4_regex. rewrite (test_anchored quad str eq_refl), quad_iff.
  unfold dotted_quad. set (s := list_ascii_of_string str). split.
  - intros (a & b & c & d & -> & Ha & Hb & Hc & Hd).
    rewrite !split_dot_app, (split_dot_dotless d)
      by (apply octet_text_dotless; assumption).
    rewrite Ha, Hb, Hc, Hd. reflexivity.
  - intros H. pose proof (join_split_dot s) as Hj.
    destruct (split_dot s) as [|a [|b [|c [|d [|e l]]]]]; try discriminate.
    rewrite !andb_true_iff in H. destruct H as [[[Ha Hb] Hc] Hd].
    exists a, b, c, d. simpl in Hj. auto.
Qed.

Lemma isValidIPv4_dotted_quad (str : string) : isValidIPv4 str = dotted_quad str.
Proof. apply eq_true_iff_eq, isValidIPv4_iff. Qed.

(* ================================================================== *)
(** * The lookup endpoint: properties *)
(* ================================================================== *)

Local Open Scope string_scope.
Local Open Scope list_scope.
Local Open Scope nat_scope.

Lemma lookup_invalid db req :
  isValidIPv4 (ipToLookup req) = false -> lookup db req = ([], invalid_format).
Proof. intros H. unfold lookup. rewrite H. reflexivity. Qed.

Lemma lookup_unavailable db req :
  isValidIPv4 (ipToLookup req) = true -> loaded db = false ->
  lookup db req = ([], unavailable).
Proof.
  intros H L. unfold lookup. rewrite H. simpl.
  unfold loaded in L. apply negb_false_iff in L. rewrite L. reflexivity.
Qed.

Lemma lookup_ok db req loc :
  isValidIPv4 (ipToLookup req) = true -> loaded db = true ->
  snd (lookup_location db (ipToLookup req)) = Done loc ->
  lookup db req =
  (fst (lookup_location db (ipToLookup req))
     ++ fst (lookup_network db (ipToLookup req)),
   ok {| statusCode := JNumber "200";
         status := JString "success";
         ip := JString (ipToLookup req);
         location := loc;
         network := snd (lookup_network db (ipToLookup req)) |}).
Proof.
  intros H L E. unfold lookup. rewrite H. simpl.
  unfold loaded in L. apply negb_true_iff in L. rewrite L.
  destruct (lookup_location db (ipToLookup req)) as [q1 a].
  cbn [snd] in E. subst a.
  destruct (lookup_network db (ipToLookup req)) as [q2 net]. reflexivity.
Qed.

(** A throw in the location block: the [catch] block answers, and the
    log ends with the query of the location block. *)
Lemma lookup_thrown db req m :
  isValidIPv4 (ipToLookup req) = true -> loaded db = true ->
  snd (lookup_location db (ipToLookup req)) = Thrown m ->
  lookup db req = (fst (lookup_location db (ipToLookup req)), server_error).
Proof.
  intros H L E. unfold lookup. rewrite H. simpl.
  unfold loaded in L. apply negb_true_iff in L. rewrite L.
  destruct (lookup_location db (ipToLookup req)) as [q1 a].
  cbn [snd] in E. subst a. reflexivity.
Qed.

(** The queries of the location block are fixed by the handles. *)
Lemma location_queries (db : Databases) (ip : string) :
  fst (lookup_location db ip)
  = match ipCityDB db, ipCountryDB db with
    | Some _, _ => [ {| queried := DbCity; key := ip |} ]
    | None, Some _ => [ {| queried := DbCountry; key := ip |} ]
    | None, None => []
    end.
Proof.
  unfold lookup_location.
  destruct (ipCityDB db); [reflexivity|].
  destruct (ipCountryDB db); reflexivity.
Qed.

Lemma network_queries (db : Databases) (ip : string) :
  fst (lookup_network db ip)
  = match ipAsnDB db with
    | Some _ => [ {| queried := DbAsn; key := ip |} ]
    | None => []
    end.
Proof. unfold lookup_network. destruct (ipAsnDB db); reflexivity. Qed.


(** A miss in the reader of the location block, or no such reader,
    leaves the default location: nothing is thrown. *)
Lemma location_miss (db : Databases) (ip : string) :
  (forall rd, ipCityDB db = Some rd -> get rd ip = None) ->
  (ipCityDB db = None ->
   forall rd, ipCountryDB db = Some rd -> get rd ip = None) ->
  snd (lookup_location db ip) = Done default_location.
Proof.
  intros Hc Hk. unfold lookup_location.
  destruct (ipCityDB db) as [c|].
  - cbn [snd]. rewrite (Hc c eq_refl). reflexivity.
  - destruct (ipCountryDB db) as [k|]; [|reflexivity].
    cbn [snd]. rewrite (Hk eq_refl k eq_refl). reflexivity.
Qed.

(** After the two checks the handler answers with a record or with the
    server error, as the location block ends. *)
Lemma lookup_cases (db : Databases) (req : Request) :
  isValidIPv4 (ipToLookup req) = true -> loaded db = true ->
  (exists loc,
     snd (lookup_location db (ipToLookup req)) = Done loc
     /\ lookup db req
        = (fst (lookup_location db (ipToLookup req))
             ++ fst (lookup_network db (ipToLookup req)),
           ok {| statusCode := JNumber "200";
                 status := JString "success";
                 ip := JString (ipToLookup req);
                 location := loc;
                 network := snd (lookup_network db (ipToLookup req)) |}))
  \/ (exists m,
        snd (lookup_location db (ipToLookup req)) = Thrown m
        /\ lookup db req
           = (fst (lookup_location db (ipToLookup req)), server_error)).
Proof.
  intros Hv L.
  destruct (snd (lookup_location db (ipToLookup req))) as [loc|m] eqn:E.
  - left. exists loc. split; [reflexivity|]. apply lookup_ok; assumption.
  - right. exists m. split; [reflexivity|].
    apply (lookup_thrown db req m); assumption.
Qed.

(** C1.  For a valid IPv4 address, when the city reader is loaded and has
    no record for the address, the handler makes no query on the country
    reader and the location block, with its country name and code, is
    the default one.  In any request at all, a query on the country
    reader means that no city reader is loaded. *)
Theorem city_miss_no_country_query (db : Databases) (req : Request)
    (cityDB : Reader CityResponse.t) :
  isValidIPv4 (ipToLookup req) = true ->
  ipCityDB db = Some cityDB ->
  get cityDB (ipToLookup req) = None ->
  (forall q, In q (fst (lookup db req)) -> queried q <> DbCountry)
  /\ (exists r, snd (lookup db req) = ok r
                /\ location r = default_location
                /\ country (location r) = JString "Unknown"
                /\ countryCode (location r) = JString "XX")
  /\ (forall db' req' q,
         In q (fst (lookup db' req')) -> queried q = DbCountry ->
         ipCityDB db' = None).
Proof.
  intros Hv Hc Hm.
  assert (L : loaded db = true) by (unfold loaded; rewrite Hc; reflexivity).
  assert (E : snd (lookup_location db (ipToLookup req)) = Done default_location).
  { unfold lookup_location. rewrite Hc, Hm. reflexivity. }
  rewrite (lookup_ok db req default_location Hv L E).
  rewrite location_queries, network_queries, Hc. cbn [fst snd].
  split; [|split].
  - intros q [<- | Hq]; [discriminate|].
    destruct (ipAsnDB db); simpl in Hq;
      [destruct Hq as [<- | []]; discriminate | contradiction].
  - eexists. split; [reflexivity|]. simpl. auto.
  - intros db' req' q Hq Hk.
    destruct (isValidIPv4 (ipToLookup req')) eqn:Hv';
      [|rewrite (lookup_invalid db' req' Hv') in Hq; contradiction].
    destruct (loaded db') eqn:L';
      [|rewrite (lookup_unavailable db' req' Hv' L') in Hq; contradiction].
    destruct (ipCityDB db') as [c|] eqn:Ec; [|reflexivity]. exfalso.
    destruct (lookup_cases db' req' Hv' L') as [(loc & _ & R) | (m & _ & R)];
      rewrite R, location_queries, ?network_queries, Ec in Hq; cbn [fst] in Hq.
    + destruct (ipAsnDB db'); simpl in Hq;
        repeat (destruct Hq as [<- | Hq]; [discriminate|]); contradiction.
    + destruct Hq as [<- | []]. discriminate.
Qed.

Lemma city_miss_no_country_query_witness :
  answer (ipCountryDB Examples.city_miss_country_hit) "1.1.1.1"
  = Some (Some Examples.country_hit)
  /\ (forall q, In q (fst (lookup Examples.city_miss_country_hit
                             (Examples.request_for "1.1.1.1"))) ->
                queried q <> DbCountry)
  /\ (exists r, snd (lookup Examples.city_miss_country_hit
                       (Examples.request_for "1.1.1.1")) = ok r
                /\ location r = default_location
                /\ country (location r) = JString "Unknown"
                /\ countryCode (location r) = JString "XX")
  /\ (forall db' req' q,
         In q (fst (lookup db' req')) -> queried q = DbCountry ->
         ipCityDB db' = None).
Proof.
  split; [reflexivity|].
  apply (@city_miss_no_country_query Examples.city_miss_country_hit
           (Examples.request_for "1.1.1.1")
           (Examples.reader_of "8.8.8.8" Examples.city_hit));
    reflexivity.
Defined.

(** C2.  A string that is not four dot-separated octets, each 0-255, is
    answered with status 400 and the validation message, and no reader
    has been queried. *)
Theorem invalid_syntax_rejected (db : Databases) (req : Request) :
  dotted_quad (ipToLookup req) = false ->
  lookup db req = ([], invalid_format)
  /\ http_status (snd (lookup db req)) = 400
  /\ fst (lookup db req) = [].
Proof.
  intros H. rewrite <- isValidIPv4_dotted_quad in H.
  rewrite (lookup_invalid db req H). auto.
Qed.

Lemma invalid_syntax_rejected_witness :
  lookup Examples.all_databases (Examples.request_for "999.1.1.1")
  = ([], invalid_format)
  /\ http_status (snd (lookup Examples.all_databases
                         (Examples.request_for "999.1.1.1"))) = 400
  /\ fst (lookup Examples.all_databases (Examples.request_for "999.1.1.1")) = [].
Proof.
  apply (@invalid_syntax_rejected Examples.all_databases
           (Examples.request_for "999.1.1.1")).
  reflexivity.
Defined.

(** C3.  For a valid IPv4 address, when none of the three handles is
    loaded the answer is status 503 with the service-unavailable
    message, not a record of defaults. *)
Theorem no_database_unavailable (db : Databases) (req : Request) :
  isValidIPv4 (ipToLookup req) = true ->
  ipCountryDB db = None -> ipCityDB db = None -> ipAsnDB db = None ->
  lookup db req = ([], unavailable)
  /\ http_status (snd (lookup db req)) = 503
  /\ forall r, body (snd (lookup db req)) <> ResultBody r.
Proof.
  intros Hv H1 H2 H3.
  assert (L : loaded db = false) by (unfold loaded; rewrite H1, H2, H3; reflexivity).
  rewrite (lookup_unavailable db req Hv L). simpl. repeat split. discriminate.
Qed.

Lemma no_database_unavailable_witness :
  lookup Examples.no_databases (Examples.request_for "8.8.8.8")
  = ([], unavailable)
  /\ http_status (snd (lookup Examples.no_databases
                         (Examples.request_for "8.8.8.8"))) = 503
  /\ forall r, body (snd (lookup Examples.no_databases
                            (Examples.request_for "8.8.8.8"))) <> ResultBody r.
Proof.
  apply (@no_database_unavailable Examples.no_databases
           (Examples.request_for "8.8.8.8")); reflexivity.
Defined.

(** C4, as worded, fails: the country reader alone is loaded and has a
    record for 8.8.8.8, but the record has no country entry, so the
    country name and code are not filled from it. *)
Lemma country_fallback_counterexample :
  ~ country_fallback_claim
      (Examples.country_only Examples.country_hit_without_country)
      (Examples.request_for "8.8.8.8").
Proof.
  intros H.
  destruct (H eq_refl eq_refl _ eq_refl) as (r & _ & _ & Hp).
  destruct (Hp Examples.country_hit_without_country eq_refl) as (c & Hc & _).
  discriminate Hc.
Qed.

(** C4, amended.  With the country reader loaded and no city reader, for
    a valid IPv4 address every record returned has its city, zipCode,
    coordinates, region and timezone fields at their defaults.  On a hit
    whose record has a country entry with its names table a record is
    returned, with the country name and code of that entry; on a hit
    whose record has no country entry, and on a miss, a record is
    returned with the country name and code at their defaults. *)
Theorem country_fallback (db : Databases) (req : Request)
    (countryDB : Reader CountryResponse.t) :
  isValidIPv4 (ipToLookup req) = true ->
  ipCityDB db = None ->
  ipCountryDB db = Some countryDB ->
  (forall r, snd (lookup db req) = ok r -> city_fields_default (location r))
  /\ (forall rec c table,
        get countryDB (ipToLookup req) = Some rec ->
        CountryResponse.country rec = Some c ->
        CountryRecord.names c = Some table ->
        exists r, snd (lookup db req) = ok r /\ populated_from c (location r))
  /\ (forall rec,
        get countryDB (ipToLookup req) = Some rec ->
        CountryResponse.country rec = None ->
        exists r, snd (lookup db req) = ok r
                  /\ country (location r) = JString "Unknown"
                  /\ countryCode (location r) = JString "XX")
  /\ (get countryDB (ipToLookup req) = None ->
      exists r, snd (lookup db req) = ok r /\ location r = default_location).
Proof.
  intros Hv Hc Hk.
  assert (L : loaded db = true) by (unfold loaded; rewrite Hc, Hk; reflexivity).
  assert (E : snd (lookup_location db (ipToLookup req))
              = when_try (get countryDB (ipToLookup req)) apply_country
                  default_location).
  { unfold lookup_location. rewrite Hc, Hk. reflexivity. }
  destruct (get countryDB (ipToLookup req)) as [rec|] eqn:G; cbn [when_try] in E.
  - unfold apply_country in E.
    destruct (CountryResponse.country rec) as [c|] eqn:Ec; cbn [when_try] in E.
    + destruct (CountryRecord.names c) as [table|] eqn:En;
        cbn [read_en bind] in E.
      * rewrite (lookup_ok db req _ Hv L E). cbn [snd].
        split; [|split; [|split]].
        -- intros r Hr. injection Hr as <-. repeat split.
        -- intros rec' c' table' Hrec Hc' Ht'.
           assert (rec' = rec) by congruence. subst rec'.
           assert (c' = c) by congruence. subst c'.
           eexists. split; [reflexivity|].
           exists table. repeat split. exact En.
        -- intros rec' Hrec Hn. assert (rec' = rec) by congruence. subst rec'.
           congruence.
        -- discriminate.
      * rewrite (lookup_thrown db req _ Hv L E). cbn [snd].
        split; [|split; [|split]].
        -- intros r Hr. discriminate Hr.
        -- intros rec' c' table' Hrec Hc' Ht'.
           assert (rec' = rec) by congruence. subst rec'.
           assert (c' = c) by congruence. subst c'. congruence.
        -- intros rec' Hrec Hn. assert (rec' = rec) by congruence. subst rec'.
           congruence.
        -- discriminate.
    + rewrite (lookup_ok db req _ Hv L E). cbn [snd].
      split; [|split; [|split]].
      * intros r Hr. injection Hr as <-. repeat split.
      * intros rec' c' table' Hrec Hc' Ht'.
        assert (rec' = rec) by congruence. subst rec'. congruence.
      * intros rec' _ _. eexists. split; [reflexivity|]. split; reflexivity.
      * discriminate.
  - rewrite (lookup_ok db req _ Hv L E). cbn [snd].
    split; [|split; [|split]].
    + intros r Hr. injection Hr as <-. repeat split.
    + discriminate.
    + discriminate.
    + intros _. eexists. split; reflexivity.
Qed.

Lemma country_fallback_witness :
  exists r,
    snd (lookup (Examples.country_only Examples.country_hit)
                (Examples.request_for "8.8.8.8")) = ok r
    /\ city_fields_default (location r)
    /\ country (location r) = JString "United States"
    /\ countryCode (location r) = JString "US".
Proof.
  destruct (@country_fallback (Examples.country_only Examples.country_hit)
              (Examples.request_for "8.8.8.8")
              (Examples.reader_of "8.8.8.8" Examples.country_hit)
              eq_refl eq_refl eq_refl)
    as (Hcity & Hhit & _ & _).
  destruct (Hhit Examples.country_hit Examples.united_states
              {| en := JString "United States" |} eq_refl eq_refl eq_refl)
    as (r & Hr & table & Hn & Hname & Hcode).
  exists r. split; [exact Hr|]. split; [exact (Hcity r Hr)|].
  injection Hn as <-. split; [exact Hname | exact Hcode].
Defined.

(** A country entry without its names table, with the ASN reader loaded
    as well: the read of [names.en] throws, the ASN reader is not queried
    and the answer is the server error. *)
Example nameless_country_server_error :
  lookup
    {| ipCountryDB :=
         Some (Examples.reader_of "8.8.8.8"
                 {| CountryResponse.country :=
                      Some Examples.nameless_country |});
       ipCityDB := None;
       ipAsnDB := Some (Examples.reader_of "8.8.8.8" Examples.asn_hit) |}
    (Examples.request_for "8.8.8.8")
  = ([ {| queried := DbCountry; key := "8.8.8.8" |} ], server_error).
Proof. reflexivity. Qed.



(** A miss in every loaded reader gives the default record, status 200. *)
Lemma miss_keeps_defaults (db : Databases) (req : Request) :
  isValidIPv4 (ipToLookup req) = true ->
  loaded db = true ->
  (forall rd, ipCityDB db = Some rd -> get rd (ipToLookup req) = None) ->
  (forall rd, ipCountryDB db = Some rd -> get rd (ipToLookup req) = None) ->
  (forall rd, ipAsnDB db = Some rd -> get rd (ipToLookup req) = None) ->
  snd (lookup db req) = ok (default_result (ipToLookup req)).
Proof.
  intros Hv L Hc Hk Ha.
  assert (E : snd (lookup_location db (ipToLookup req)) = Done default_location).
  { apply location_miss; [exact Hc | intros _; exact Hk]. }
  rewrite (lookup_ok db req _ Hv L E). cbn [snd].
  unfold lookup_network, default_result.
  destruct (ipAsnDB db) as [a|]; [rewrite (Ha a eq_refl)|]; reflexivity.
Qed.

(** C6, evaluated where it fails.  The city reader has a record for
    8.8.8.8 whose location entry carries coordinates and no time_zone:
    the response has status 200, its timezone field is [undefined]
    instead of "Unknown", and the JSON sent has no timezone member, so
    its shape is not the shape of the default record. *)
Theorem missing_time_zone_breaks_shape :
  exists r,
    lookup (Examples.city_only Examples.city_hit_without_time_zone)
           (Examples.request_for "8.8.8.8")
    = ([ {| queried := DbCity; key := "8.8.8.8" |} ], ok r)
    /\ timezone (location r) = JUndefined
    /\ timezone (location r) <> JString "Unknown"
    /\ shape_of (json_of_result r)
       = Node [("statusCode", Leaf); ("status", Leaf); ("ip", Leaf);
               ("location",
                Node [("country", Leaf); ("countryCode", Leaf);
                      ("region", Leaf); ("city", Leaf); ("zipCode", Leaf);
                      ("coordinates",
                       Node [("latitude", Leaf); ("longitude", Leaf)])]);
               ("network",
                Node [("isp", Leaf); ("organization", Leaf); ("asn", Leaf);
                      ("asName", Leaf)])]
    /\ ~ uniform_shape_claim
           (Examples.city_only Examples.city_hit_without_time_zone)
           (Examples.request_for "8.8.8.8").
Proof.
  eexists. split; [reflexivity|]. split; [reflexivity|].
  split; [discriminate|]. split; [reflexivity|].
  intros H. specialize (H _ eq_refl). discriminate H.
Qed.

(** C9.  A string of four dot-separated components, each of one to three
    digits and numerically within 0-255, leading zeros included, passes
    the validator.  The answer is never status 400; with no reader
    loaded it is the 503 of the availability check; with some reader
    loaded the handler goes on to the readers: it makes at least one
    query, every query is made with that very string, and the status is
    200 or, when the location block throws, 500.  The witness is
    "010.001.002.003". *)
Theorem leading_zeros_accepted (str : string) (db : Databases) (req : Request) :
  dotted_quad str = true ->
  ipToLookup req = str ->
  isValidIPv4 str = true
  /\ http_status (snd (lookup db req)) <> 400
  /\ (loaded db = false -> http_status (snd (lookup db req)) = 503)
  /\ (loaded db = true ->
      fst (lookup db req) <> []
      /\ (forall q, In q (fst (lookup db req)) -> key q = str)
      /\ (http_status (snd (lookup db req)) = 200
          \/ http_status (snd (lookup db req)) = 500)
      /\ ((forall e, snd (lookup_location db str) <> Thrown e) ->
          http_status (snd (lookup db req)) = 200)).
Proof.
  intros Hd <-. rewrite <- isValidIPv4_dotted_quad in Hd.
  split; [exact Hd|].
  destruct (loaded db) eqn:L.
  - assert (K : fst (lookup_location db (ipToLookup req))
                  ++ fst (lookup_network db (ipToLookup req)) <> []
                /\ forall q,
                     In q (fst (lookup_location db (ipToLookup req))
                             ++ fst (lookup_network db (ipToLookup req))) ->
                     key q = ipToLookup req).
    { rewrite location_queries, network_queries. unfold loaded in L.
      destruct (ipCityDB db), (ipCountryDB db), (ipAsnDB db); cbn in *;
        try discriminate L;
        (split; [discriminate|]; intros q Hq;
         repeat (destruct Hq as [<- | Hq]; [reflexivity|]); contradiction). }
    destruct K as [K1 K2].
    destruct (lookup_cases db req Hd L) as [(loc & E & R) | (m & E & R)];
      rewrite R; cbn [fst snd http_status ok server_error].
    + split; [discriminate|]. split; [discriminate|]. intros _.
      split; [exact K1|]. split; [exact K2|]. split; [left; reflexivity|].
      reflexivity.
    + split; [discriminate|]. split; [discriminate|]. intros _.
      assert (N : fst (lookup_location db (ipToLookup req)) <> []).
      { revert E. unfold lookup_location.
        destruct (ipCityDB db); [discriminate|].
        destruct (ipCountryDB db); discriminate. }
      split; [exact N|]. split.
      * intros q Hq. apply K2. apply in_or_app. left. exact Hq.
      * split; [right; reflexivity|]. intros H. elim (H m). exact E.
  - rewrite (lookup_unavailable db req Hd L). cbn [snd http_status unavailable].
    split; [discriminate|]. split; [reflexivity|]. discriminate.
Qed.

Lemma leading_zeros_accepted_witness :
  isValidIPv4 "010.001.002.003" = true
  /\ http_status (snd (lookup Examples.all_databases
                         (Examples.request_for "010.001.002.003"))) <> 400
  /\ fst (lookup Examples.all_databases
            (Examples.request_for "010.001.002.003"))
     = [ {| queried := DbCity; key := "010.001.002.003" |};
         {| queried := DbAsn; key := "010.001.002.003" |} ]
  /\ http_status (snd (lookup Examples.all_databases
                         (Examples.request_for "010.001.002.003"))) = 200.
Proof.
  destruct (@leading_zeros_accepted "010.001.002.003" Examples.all_databases
              (Examples.request_for "010.001.002.003") eq_refl eq_refl)
    as (Hv & H400 & _ & Hl).
  destruct (Hl eq_refl) as (_ & _ & _ & H200).
  split; [exact Hv|]. split; [exact H400|]. split; [reflexivity|].
  apply H200. intros e. discriminate.
Defined.

(* ================================================================== *)
(** * The refresh script: properties *)
(* ================================================================== *)

Lemma visit_dir (dir : path) (item : string) (sub : list entry) :
  visit dir (Dir item sub) = findMmdbFile (join dir item) sub.
Proof. simpl. induction sub as [|e rest IH]; simpl; [reflexivity|]. rewrite IH. reflexivity. Qed.

Lemma payloads_of_dir (dir : path) (item : string) (sub : list entry) :
  payloads_of dir (Dir item sub) = payloads (join dir item) sub.
Proof. simpl. induction sub as [|e rest IH]; simpl; [reflexivity|]. rewrite IH. reflexivity. Qed.

Lemma hd_error_app {A : Type} (l1 l2 : list A) :
  hd_error (l1 ++ l2)
  = match hd_error l1 with Some x => Some x | None => hd_error l2 end.
Proof. destruct l1; reflexivity. Qed.

Lemma visit_first (e : entry) :
  forall dir, visit dir e = hd_error (payloads_of dir e).
Proof.
  induction e as [name data | name items IH] using entry_induction; intros dir.
  - simpl. destruct (endsWith name ".mmdb"); reflexivity.
  - rewrite visit_dir, payloads_of_dir.
    induction IH as [|e rest He _ IHrest]; simpl; [reflexivity|].
    rewrite hd_error_app, <- He, IHrest. reflexivity.
Qed.

Lemma findMmdbFile_first (dir : path) (items : list entry) :
  findMmdbFile dir items = hd_error (payloads dir items).
Proof.
  induction items as [|e rest IH]; simpl; [reflexivity|].
  rewrite hd_error_app, <- visit_first, IH. reflexivity.
Qed.

(** ** The entries of the data directory *)

Lemma lookup_put_same (e : entry) (fs : list entry) :
  lookup_entry (entry_name e) (put_entry e fs) = Some e.
Proof.
  induction fs as [|e' rest IH]; simpl.
  - rewrite String.eqb_refl. reflexivity.
  - destruct (String.eqb (entry_name e') (entry_name e)) eqn:E; simpl.
    + rewrite String.eqb_refl. reflexivity.
    + rewrite E. exact IH.
Qed.

Lemma lookup_put_other (e : entry) (name : string) (fs : list entry) :
  entry_name e <> name ->
  lookup_entry name (put_entry e fs) = lookup_entry name fs.
Proof.
  intros Hn. apply String.eqb_neq in Hn.
  induction fs as [|e' rest IH]; simpl.
  - rewrite Hn. reflexivity.
  - destruct (String.eqb (entry_name e') (entry_name e)) eqn:E; simpl.
    + apply String.eqb_eq in E. rewrite E, Hn. reflexivity.
    + rewrite IH. reflexivity.
Qed.

Lemma lookup_remove_same (name : string) (fs : list entry) :
  lookup_entry name (remove_entry name fs) = None.
Proof.
  induction fs as [|e rest IH]; simpl; [reflexivity|].
  destruct (String.eqb (entry_name e) name) eqn:E; simpl; [exact IH|].
  rewrite E. exact IH.
Qed.

Lemma lookup_remove_other (name other : string) (fs : list entry) :
  other <> name ->
  lookup_entry name (remove_entry other fs) = lookup_entry name fs.
Proof.
  intros Hn. induction fs as [|e rest IH]; simpl; [reflexivity|].
  destruct (String.eqb (entry_name e) other) eqn:E; simpl.
  - apply String.eqb_eq in E.
    destruct (String.eqb (entry_name e) name) eqn:E'; [|exact IH].
    apply String.eqb_eq in E'. congruence.
  - rewrite IH. reflexivity.
Qed.

Lemma length_append (s1 s2 : string) :
  String.length (s1 ++ s2) = String.length s1 + String.length s2.
Proof. induction s1 as [|c s1 IH]; simpl; [reflexivity|]. rewrite IH. reflexivity. Qed.

Lemma length_capitalize (type : string) :
  String.length (capitalize type) = String.length type.
Proof. destruct type; reflexivity. Qed.

Lemma length_tempFile type : String.length (tempFile_of type) = String.length type + 7.
Proof. unfold tempFile_of. rewrite length_append. reflexivity. Qed.

Lemma length_tempDir type : String.length (tempDir_of type) = String.length type + 5.
Proof. unfold tempDir_of. rewrite length_append. simpl. lia. Qed.

Lemma length_destPath type : String.length (destPath_of type) = String.length type + 14.
Proof.
  unfold destPath_of. rewrite !length_append, length_capitalize. simpl. lia.
Qed.

Lemma tempFile_not_tempDir type : tempFile_of type <> tempDir_of type.
Proof.
  intros E. apply (f_equal String.length) in E.
  rewrite length_tempFile, length_tempDir in E. lia.
Qed.

Lemma destPath_not_tempDir type : destPath_of type <> tempDir_of type.
Proof.
  intros E. apply (f_equal String.length) in E.
  rewrite length_destPath, length_tempDir in E. lia.
Qed.

Lemma destPath_not_tempFile type : destPath_of type <> tempFile_of type.
Proof.
  intros E. apply (f_equal String.length) in E.
  rewrite length_destPath, length_tempFile in E. lia.
Qed.

Lemma existsSync_true (name : string) (fs : list entry) :
  existsSync name fs = true <-> lookup_entry name fs <> None.
Proof.
  unfold existsSync. destruct (lookup_entry name fs); simpl; split;
    congruence.
Qed.

Lemma existsSync_false (name : string) (fs : list entry) :
  existsSync name fs = false <-> lookup_entry name fs = None.
Proof.
  unfold existsSync. destruct (lookup_entry name fs); simpl; split;
    congruence.
Qed.

Lemma writeFileSync_done (name data : string) (fs fs' : list entry) :
  writeFileSync name data fs = Done fs' ->
  fs' = put_entry (File name data) fs.
Proof.
  unfold writeFileSync.
  destruct (lookup_entry name fs) as [[? ?|? ?]|]; intros E;
    try discriminate; injection E as <-; reflexivity.
Qed.

Lemma writeFileSync_thrown (name data : string) (fs : list entry) (m : string) :
  writeFileSync name data fs = Thrown m ->
  exists n items, lookup_entry name fs = Some (Dir n items).
Proof.
  unfold writeFileSync.
  destruct (lookup_entry name fs) as [[? ?|n items]|]; intros E;
    try discriminate. eauto.
Qed.

Lemma copyFileSync_done (src : path) (dest : string) (fs fs' : list entry) :
  copyFileSync src dest fs = Done fs' ->
  exists data, fs' = put_entry (File dest data) fs.
Proof.
  unfold copyFileSync.
  destruct (read_path src fs) as [[n data|? ?]|]; try discriminate.
  intros E. exists data. apply writeFileSync_done. exact E.
Qed.

Lemma scratch_present_put (type : string) (e : entry) (fs : list entry) :
  entry_name e <> tempFile_of type ->
  scratch_present type fs ->
  scratch_present type (put_entry e fs).
Proof.
  intros Hn [[d Hf] Hd]. split.
  - exists d. rewrite lookup_put_other by exact Hn. exact Hf.
  - apply existsSync_true. apply existsSync_true in Hd.
    destruct (String.eqb (entry_name e) (tempDir_of type)) eqn:E.
    + apply String.eqb_eq in E. rewrite <- E, lookup_put_same. discriminate.
    + apply String.eqb_neq in E. rewrite lookup_put_other by exact E. exact Hd.
Qed.

Section RefreshFacts.

Variable tar_extract : string -> list entry -> attempt (list entry).

Lemma try_block_cases (type data : string) (fs fs' : list entry)
    (r : attempt unit) :
  try_block tar_extract type (Done data) fs = (fs', r) ->
  match r with
  | Done _ =>
      lookup_entry (tempFile_of type) fs' = None
      /\ lookup_entry (tempDir_of type) fs' = None
  | Thrown _ =>
      (fs' = fs /\ exists n items,
          lookup_entry (tempFile_of type) fs = Some (Dir n items))
      \/ scratch_present type fs'
  end.
Proof.
  unfold try_block.
  destruct (writeFileSync (tempFile_of type) data fs) as [fs1|m] eqn:W.
  2:{ intros E. injection E as <- <-. left. split; [reflexivity|].
      eapply writeFileSync_thrown; eassumption. }
  apply writeFileSync_done in W.
  set (fs2 := if existsSync (tempDir_of type) fs1 then fs1
              else mkdirSync (tempDir_of type) fs1).
  assert (P2 : scratch_present type fs2).
  { assert (P1 : exists d, lookup_entry (tempFile_of type) fs1
                           = Some (File (tempFile_of type) d)).
    { exists data. rewrite W.
      apply (lookup_put_same (File (tempFile_of type) data)). }
    subst fs2. destruct (existsSync (tempDir_of type) fs1) eqn:X.
    - split; assumption.
    - destruct P1 as [d P1]. split.
      + exists d. unfold mkdirSync. rewrite lookup_put_other; [exact P1|].
        simpl. intros E. symmetry in E. exact (tempFile_not_tempDir type E).
      + apply existsSync_true. unfold mkdirSync.
        rewrite (lookup_put_same (Dir (tempDir_of type) [])). discriminate. }
  clearbody fs2.
  destruct (match lookup_entry (tempDir_of type) fs2 with
            | Some (Dir _ items) => tar_extract data items
            | _ => Thrown "ENOTDIR: not a directory"
            end) as [items|m] eqn:T.
  2:{ intros E. injection E as <- <-. right. exact P2. }
  assert (P3 : scratch_present type (put_entry (Dir (tempDir_of type) items) fs2)).
  { apply scratch_present_put; [|exact P2]. simpl. intros E. symmetry in E.
    exact (tempFile_not_tempDir type E). }
  destruct (findMmdbFile [tempDir_of type] items) as [p|].
  2:{ intros E. injection E as <- <-. right. exact P3. }
  destruct (copyFileSync p (destPath_of type)
              (put_entry (Dir (tempDir_of type) items) fs2)) as [fs4|m] eqn:K.
  2:{ intros E. injection E as <- <-. right. exact P3. }
  apply copyFileSync_done in K. destruct K as [d K].
  assert (P4 : scratch_present type fs4).
  { rewrite K. apply scratch_present_put; [|exact P3]. simpl.
    apply destPath_not_tempFile. }
  destruct P4 as [[d' P4] _]. unfold unlinkSync. rewrite P4.
  intros E. injection E as <- <-. unfold rmSync. split.
  - rewrite lookup_remove_other by (intros E; symmetry in E; exact (tempFile_not_tempDir type E)).
    apply lookup_remove_same.
  - apply lookup_remove_same.
Qed.

(** The success path removes both scratch artifacts. *)
Lemma updated_run_removes_scratch (type data : string) (fs fs' : list entry) :
  downloadAndExtractDatabase tar_extract type (Done data) fs = (fs', Updated) ->
  existsSync (tempFile_of type) fs' = false
  /\ existsSync (tempDir_of type) fs' = false.
Proof.
  unfold downloadAndExtractDatabase.
  destruct (try_block tar_extract type (Done data) fs) as [fs1 [u|m]] eqn:T.
  - intros E. injection E as <-. apply try_block_cases in T.
    rewrite !existsSync_false. exact T.
  - destruct (existsSync (tempFile_of type) fs1);
      [destruct (unlinkSync (tempFile_of type) fs1)|]; discriminate.
Qed.

(** The failure path removes the archive and leaves the scratch
    directory. *)
Lemma failed_run_keeps_scratch_dir (type data : string)
    (fs fs' : list entry) (message : string) :
  downloadAndExtractDatabase tar_extract type (Done data) fs
  = (fs', Failed message) ->
  existsSync (tempFile_of type) fs' = false
  /\ existsSync (tempDir_of type) fs' = true.
Proof.
  unfold downloadAndExtractDatabase.
  destruct (try_block tar_extract type (Done data) fs) as [fs1 [u|m]] eqn:T;
    [discriminate|].
  apply try_block_cases in T. destruct T as [[-> (n & items & Hd)] | [[d Hf] Hd]].
  - unfold existsSync, unlinkSync. rewrite Hd. simpl. discriminate.
  - unfold existsSync at 1. unfold unlinkSync. rewrite Hf. simpl.
    intros E. injection E as <- <-. split.
    + apply existsSync_false, lookup_remove_same.
    + apply existsSync_true. apply existsSync_true in Hd.
      rewrite lookup_remove_other by apply tempFile_not_tempDir. exact Hd.
Qed.

End RefreshFacts.

(** Extraction merges into what the directory holds already. *)
Example tar_extract_merges :
  Archives.tar_extract "archive with one payload"
    [ Dir "GeoLite2-Country_20240102" [ File "README.txt" "left over" ] ]
  = Done [ Dir "GeoLite2-Country_20240102"
             [ File "COPYRIGHT.txt" "copyright";
               File "GeoLite2-Country.mmdb" "the payload";
               File "LICENSE.txt" "license";
               File "README.txt" "left over" ] ].
Proof. reflexivity. Qed.

(** C7, evaluated where it fails.  The archive downloaded for "country"
    holds no .mmdb file: the run ends in the [catch] block, which
    unlinks the archive only, and the scratch directory temp_country,
    with what was extracted, is still in the data directory. *)
Theorem failed_refresh_leaves_scratch_dir :
  downloadAndExtractDatabase Archives.tar_extract "country"
    (Done "archive without payload") []
  = ([Dir "temp_country" Archives.without_payload],
     Failed "Could not find .mmdb file for country")
  /\ existsSync (tempDir_of "country")
       (fst (downloadAndExtractDatabase Archives.tar_extract "country"
               (Done "archive without payload") [])) = true
  /\ ~ scratch_removed_claim Archives.tar_extract "country"
         (Done "archive without payload") [].
Proof.
  split; [reflexivity|]. split; [reflexivity|].
  intros [_ H]. discriminate H.
Qed.


(* ================================================================== *)
(** * Further properties of the validator, the endpoints, the server
      start and the refresh script *)
(* ================================================================== *)

Lemma length_list_ascii (s : string) :
  List.length (list_ascii_of_string s) = String.length s.
Proof. induction s as [|c s IH]; simpl; [reflexivity|]. rewrite IH. reflexivity. Qed.

Lemma isValidIPv4_parts (str : string) :
  isValidIPv4 str = true ->
  exists a b c d,
    list_ascii_of_string str = a ++ "."%char :: b ++ "."%char :: c ++ "."%char :: d
    /\ octet_text a = true /\ octet_text b = true
    /\ octet_text c = true /\ octet_text d = true.
Proof.
  unfold isValidIPv4, ipv4_regex. rewrite (test_anchored quad str eq_refl).
  apply quad_iff.
Qed.

Lemma octet_text_chars (w : list ascii) :
  octet_text w = true ->
  1 <= List.length w <= 3 /\ Forall address_char w.
Proof.
  intros H. apply octet_text_iff in H. destruct H as (Hl & Hd & _).
  split; [exact Hl|]. eapply Forall_impl; [|exact Hd].
  intros x Hx. left. apply is_digit_iff. exact Hx.
Qed.

Lemma valid_chars (str : string) :
  isValidIPv4 str = true -> Forall address_char (list_ascii_of_string str).
Proof.
  intros H. apply isValidIPv4_parts in H.
  destruct H as (a & b & c & d & E & Ha & Hb & Hc & Hd). rewrite E.
  apply octet_text_chars in Ha, Hb, Hc, Hd.
  destruct Ha as [_ Fa], Hb as [_ Fb], Hc as [_ Fc], Hd as [_ Fd].
  assert (Hdot : address_char "."%char) by (right; reflexivity).
  repeat (apply Forall_app; split; [assumption|]; apply Forall_cons; [exact Hdot|]).
  exact Fd.
Qed.

(** X1.  An address that the validator accepts has 7 to 15 characters, all
    of them digits or dots, with exactly three dots. *)
Theorem valid_address_alphabet (str : string) :
  isValidIPv4 str = true ->
  7 <= String.length str <= 15
  /\ Forall address_char (list_ascii_of_string str)
  /\ count_occ ascii_dec (list_ascii_of_string str) "."%char = 3.
Proof.
  intros H. pose proof (valid_chars str H) as Hchars.
  apply isValidIPv4_parts in H.
  destruct H as (a & b & c & d & E & Ha & Hb & Hc & Hd).
  rewrite <- length_list_ascii. rewrite E in *.
  pose proof (octet_text_dotless a Ha) as Da.
  pose proof (octet_text_dotless b Hb) as Db.
  pose proof (octet_text_dotless c Hc) as Dc.
  pose proof (octet_text_dotless d Hd) as Dd.
  apply octet_text_chars in Ha, Hb, Hc, Hd.
  destruct Ha as [La Fa], Hb as [Lb Fb], Hc as [Lc Fc], Hd as [Ld Fd].
  assert (Hz : forall w, dotless w -> count_occ ascii_dec w "."%char = 0).
  { intros w Hw. apply count_occ_not_In. intros Hin.
    unfold dotless in Hw. rewrite Forall_forall in Hw. exact (Hw _ Hin eq_refl). }
  split; [|split].
  - rewrite !length_app. simpl. rewrite !length_app. simpl.
    rewrite !length_app. simpl. lia.
  - exact Hchars.
  - rewrite !count_occ_app. simpl. rewrite !count_occ_app. simpl.
    rewrite !count_occ_app. simpl.
    rewrite (Hz a Da), (Hz b Db), (Hz c Dc), (Hz d Dd). reflexivity.
Qed.

Lemma valid_address_alphabet_witness :
  7 <= String.length "255.255.255.255" <= 15
  /\ Forall address_char (list_ascii_of_string "255.255.255.255")
  /\ count_occ ascii_dec (list_ascii_of_string "255.255.255.255") "."%char = 3.
Proof. apply (valid_address_alphabet "255.255.255.255"). reflexivity. Defined.

Lemma substring_all (s : string) : String.substring 0 (String.length s) s = s.
Proof. induction s as [|c s IH]; simpl; [reflexivity|]. rewrite IH. reflexivity. Qed.

Lemma prefix_append (p s : string) : String.prefix p (p ++ s)%string = true.
Proof.
  induction p as [|c p IH]; simpl; [destruct s; reflexivity|].
  destruct (ascii_dec c c) as [_|N]; [exact IH|congruence].
Qed.

Lemma substring_after (p s : string) :
  String.substring (String.length p)
    (String.length (p ++ s)%string - String.length p) (p ++ s)%string = s.
Proof.
  induction p as [|c p IH]; simpl.
  - rewrite Nat.sub_0_r. apply substring_all.
  - exact IH.
Qed.

Lemma replace_at_prefix (pat rep str : string) :
  String.prefix pat str = true ->
  replace pat rep str
  = (rep ++ String.substring (String.length pat)
              (String.length str - String.length pat) str)%string.
Proof. intros H. destruct str; cbn [replace]; rewrite H; reflexivity. Qed.

Lemma replace_mapped_prefix (s : string) :
  replace "::ffff:" EmptyString ("::ffff:" ++ s)%string = s.
Proof.
  rewrite replace_at_prefix by apply prefix_append.
  rewrite substring_after. reflexivity.
Qed.

Lemma replace_without_colon (p rep s : string) :
  Forall (fun x => x <> ":"%char) (list_ascii_of_string s) ->
  s <> EmptyString ->
  replace (String ":"%char p) rep s = s.
Proof.
  induction s as [|c s IH]; intros Hs Hne; [congruence|].
  simpl in Hs. inversion_clear Hs as [|? ? Hc Hs'].
  cbn [replace String.prefix].
  destruct (ascii_dec ":"%char c) as [E|E]; [congruence|].
  destruct s as [|c' s'].
  - reflexivity.
  - rewrite IH; [reflexivity|exact Hs'|discriminate].
Qed.

Lemma valid_not_empty (s : string) : isValidIPv4 s = true -> s <> EmptyString.
Proof. intros H ->. discriminate H. Qed.

Lemma valid_without_colon (s : string) :
  isValidIPv4 s = true ->
  Forall (fun x => x <> ":"%char) (list_ascii_of_string s).
Proof.
  intros H. apply valid_chars in H.
  eapply Forall_impl; [|exact H]. intros x [Hx | ->] E; [|discriminate E].
  subst x. discriminate Hx.
Qed.

(** X2.  Without a route parameter the address looked up is the one of the
    requester: a valid IPv4 address is taken as it is, and the prefix of
    an IPv4-mapped address is stripped; neither is answered with 400. *)
Theorem requester_address_used (s : string) (req : Request) :
  isValidIPv4 s = true ->
  (params_ip req = None \/ params_ip req = Some EmptyString) ->
  (req_ip req = s \/ req_ip req = ("::ffff:" ++ s)%string) ->
  ipToLookup req = s
  /\ forall db, http_status (snd (lookup db req)) <> 400.
Proof.
  intros Hv Hp Hr.
  assert (E : ipToLookup req = s).
  { unfold ipToLookup.
    assert (E : replace "::ffff:" EmptyString (req_ip req) = s).
    { destruct Hr as [-> | ->].
      - apply replace_without_colon;
          [apply valid_without_colon; exact Hv | apply valid_not_empty; exact Hv].
      - apply replace_mapped_prefix. }
    destruct Hp as [-> | ->]; exact E. }
  split; [exact E|]. intros db.
  rewrite <- E in Hv.
  destruct (loaded db) eqn:L.
  - destruct (lookup_cases db req Hv L) as [(loc & _ & R) | (m & _ & R)];
      rewrite R; discriminate.
  - rewrite (lookup_unavailable db req Hv L). discriminate.
Qed.

Lemma requester_address_used_witness :
  ipToLookup {| params_ip := None; req_ip := "::ffff:203.0.113.9" |}
  = "203.0.113.9"
  /\ forall db,
       http_status
         (snd (lookup db {| params_ip := None;
                            req_ip := "::ffff:203.0.113.9" |})) <> 400.
Proof.
  apply (@requester_address_used "203.0.113.9"
           {| params_ip := None; req_ip := "::ffff:203.0.113.9" |}).
  - reflexivity.
  - left. reflexivity.
  - right. reflexivity.
Defined.

(** X4.  A request makes at most two reader calls, all with the address
    looked up as their key, none on the same reader twice and never on
    both the city and the country reader.  It makes some call exactly
    when the address is valid and some handle is loaded, that is, when
    the status is 200 or 500: nothing is queried before a 400 or a 503.
    Before a 500 there is one call, on the city or the country reader,
    and none on the ASN reader. *)
Theorem query_discipline (db : Databases) (req : Request) :
  List.length (fst (lookup db req)) <= 2
  /\ (forall q, In q (fst (lookup db req)) -> key q = ipToLookup req)
  /\ NoDup (map queried (fst (lookup db req)))
  /\ ~ (In DbCity (map queried (fst (lookup db req)))
        /\ In DbCountry (map queried (fst (lookup db req))))
  /\ (fst (lookup db req) <> []
      <-> isValidIPv4 (ipToLookup req) = true /\ loaded db = true)
  /\ (fst (lookup db req) <> []
      <-> http_status (snd (lookup db req)) = 200
          \/ http_status (snd (lookup db req)) = 500)
  /\ (http_status (snd (lookup db req)) = 500 ->
      List.length (fst (lookup db req)) = 1
      /\ ~ In DbAsn (map queried (fst (lookup db req)))).
Proof.
  destruct (isValidIPv4 (ipToLookup req)) eqn:Hv.
  - destruct (loaded db) eqn:L.
    + destruct (lookup_cases db req Hv L) as [(loc & E & R) | (m & E & R)];
        rewrite R; clear R; rewrite location_queries, ?network_queries;
        unfold loaded in L; unfold lookup_location in E;
        destruct (ipCityDB db), (ipCountryDB db), (ipAsnDB db); cbn in *;
        try discriminate L; try discriminate E;
        (split; [lia|]; split;
         [intros q Hq; repeat (destruct Hq as [<- | Hq]; [reflexivity|]);
          contradiction|]; split;
         [repeat (constructor; [cbn; intuition discriminate|]); constructor|];
         split; [intuition discriminate|]; split;
         [split; [auto | discriminate]|]; split;
         [split; [auto | discriminate]|];
         first [discriminate | intros _; split; [reflexivity|];
                                intuition discriminate]).
    + rewrite (lookup_unavailable db req Hv L). cbn.
      repeat split; try lia; try contradiction; try constructor;
        try congruence; try discriminate; intuition discriminate.
  - rewrite (lookup_invalid db req Hv). cbn.
    repeat split; try lia; try contradiction; try constructor;
      try congruence; try discriminate; intuition discriminate.
Qed.

(** X5.  While a city reader is loaded, what is in the country reader has
    no effect: two sets of handles whose city readers answer alike give
    the same status, a record from one exactly when from the other, and
    then the same location block; the country reader is not queried. *)
Theorem city_reader_shadows_country (db db' : Databases) (req : Request)
    (cityDB cityDB' : Reader CityResponse.t) :
  isValidIPv4 (ipToLookup req) = true ->
  ipCityDB db = Some cityDB -> ipCityDB db' = Some cityDB' ->
  get cityDB (ipToLookup req) = get cityDB' (ipToLookup req) ->
  http_status (snd (lookup db req)) = http_status (snd (lookup db' req))
  /\ ((exists r, snd (lookup db req) = ok r)
      <-> (exists r', snd (lookup db' req) = ok r'))
  /\ (forall r r',
        snd (lookup db req) = ok r -> snd (lookup db' req) = ok r' ->
        location r = location r')
  /\ (forall q, In q (fst (lookup db req)) -> queried q <> DbCountry).
Proof.
  intros Hv Hc Hc' E.
  assert (L : loaded db = true) by (unfold loaded; rewrite Hc; reflexivity).
  assert (L' : loaded db' = true) by (unfold loaded; rewrite Hc'; reflexivity).
  assert (El : snd (lookup_location db (ipToLookup req))
               = snd (lookup_location db' (ipToLookup req))).
  { unfold lookup_location. rewrite Hc, Hc'. cbn [snd]. rewrite E. reflexivity. }
  assert (Q : forall q, In q (fst (lookup db req)) -> queried q <> DbCountry).
  { intros q Hq.
    destruct (lookup_cases db req Hv L) as [(loc & _ & R) | (m & _ & R)];
      rewrite R, location_queries, ?network_queries, Hc in Hq; cbn [fst] in Hq.
    - destruct (ipAsnDB db); simpl in Hq;
        repeat (destruct Hq as [<- | Hq]; [discriminate|]); contradiction.
    - destruct Hq as [<- | []]. discriminate. }
  destruct (lookup_cases db req Hv L) as [(loc & E1 & R) | (m & E1 & R)];
    destruct (lookup_cases db' req Hv L') as [(loc' & E2 & R') | (m' & E2 & R')];
    try congruence; rewrite R, R'; cbn [snd].
  - split; [reflexivity|]. split; [split; intros _; eexists; reflexivity|].
    split; [|rewrite R in Q; exact Q].
    intros r r' Hr Hr'. injection Hr as <-. injection Hr' as <-.
    cbn [location]. congruence.
  - split; [reflexivity|].
    split; [split; intros [r Hr]; discriminate Hr|].
    split; [|rewrite R in Q; exact Q].
    intros r r' Hr. discriminate Hr.
Qed.

Lemma city_reader_shadows_country_witness :
  exists r r',
    snd (lookup Examples.all_databases (Examples.request_for "8.8.8.8")) = ok r
    /\ snd (lookup (Examples.city_only Examples.city_hit)
                   (Examples.request_for "8.8.8.8")) = ok r'
    /\ location r = location r'
    /\ (forall q, In q (fst (lookup Examples.all_databases
                               (Examples.request_for "8.8.8.8"))) ->
                  queried q <> DbCountry).
Proof.
  destruct (@city_reader_shadows_country Examples.all_databases
              (Examples.city_only Examples.city_hit)
              (Examples.request_for "8.8.8.8")
              (Examples.reader_of "8.8.8.8" Examples.city_hit)
              (Examples.reader_of "8.8.8.8" Examples.city_hit)
              eq_refl eq_refl eq_refl eq_refl)
    as (_ & _ & Hloc & Hq).
  do 2 eexists. split; [reflexivity|]. split; [reflexivity|].
  split; [exact (Hloc _ _ eq_refl eq_refl) | exact Hq].
Defined.

(** What the city branch makes of a record: it throws exactly when an
    entry that it reads a name from has no [names] table, and otherwise
    fills each group of fields from its entry. *)
Lemma apply_city_cases (rec : CityResponse.t) :
  match apply_city rec default_location with
  | Done l => city_names_present rec = true /\ city_fields_from rec l
  | Thrown _ => city_names_present rec = false
  end.
Proof.
  unfold apply_city, city_names_present, city_fields_from, populated_from.
  destruct rec as [co su ci po lo]. cbn [CityResponse.country
    CityResponse.subdivisions CityResponse.city CityResponse.postal
    CityResponse.location].
  destruct co as [[[cot|] coi]|], su as [[|[[sut|]] su]|], ci as [[[cit|]]|],
    po as [po|], lo as [lo|]; cbn;
    try reflexivity;
    (split; [reflexivity|]);
    repeat split; try reflexivity; eexists; repeat split; reflexivity.
Qed.

(** X6.  On a city hit the handler returns a record exactly when every
    entry from which it reads a name (country, the first subdivision,
    city) has its names table, and answers 500 otherwise.  In the record
    every group of location fields is filled from its own entry of the
    city record and keeps its default when that entry is missing; the
    region comes from the first subdivision. *)
Theorem city_hit_fields (db : Databases) (req : Request)
    (cityDB : Reader CityResponse.t) (rec : CityResponse.t) :
  isValidIPv4 (ipToLookup req) = true ->
  ipCityDB db = Some cityDB ->
  get cityDB (ipToLookup req) = Some rec ->
  (forall r, snd (lookup db req) = ok r -> city_fields_from rec (location r))
  /\ ((exists r, snd (lookup db req) = ok r)
      <-> city_names_present rec = true)
  /\ (http_status (snd (lookup db req)) = 200
      <-> city_names_present rec = true)
  /\ (http_status (snd (lookup db req)) = 500
      <-> city_names_present rec = false).
Proof.
  intros Hv Hc Hg.
  assert (L : loaded db = true) by (unfold loaded; rewrite Hc; reflexivity).
  assert (E : snd (lookup_location db (ipToLookup req))
              = apply_city rec default_location).
  { unfold lookup_location. rewrite Hc. cbn [snd]. rewrite Hg. reflexivity. }
  pose proof (apply_city_cases rec) as C.
  destruct (apply_city rec default_location) as [l|m].
  - destruct C as [Hn Hf].
    rewrite (lookup_ok db req l Hv L E), Hn. cbn [snd http_status ok].
    split; [intros r Hr; injection Hr as <-; exact Hf|].
    split; [split; [reflexivity | intros _; eexists; reflexivity]|].
    split; [split; reflexivity | split; discriminate].
  - rewrite (lookup_thrown db req m Hv L E), C.
    cbn [snd http_status server_error].
    split; [intros r Hr; discriminate Hr|].
    split; [split; [intros [r Hr]; discriminate Hr | discriminate]|].
    split; [split; discriminate | split; reflexivity].
Qed.

Lemma city_hit_fields_witness :
  exists r,
    snd (lookup Examples.all_databases (Examples.request_for "8.8.8.8")) = ok r
    /\ country (location r) = JString "United States"
    /\ region (location r) = JString "California"
    /\ city (location r) = JString "Mountain View"
    /\ zipCode (location r) = JString "94043"
    /\ timezone (location r) = JString "America/Los_Angeles".
Proof.
  destruct (@city_hit_fields Examples.all_databases
              (Examples.request_for "8.8.8.8")
              (Examples.reader_of "8.8.8.8" Examples.city_hit)
              Examples.city_hit eq_refl eq_refl eq_refl)
    as (Hf & Hr & _).
  destruct (proj2 Hr eq_refl) as [r Hok].
  exists r. split; [exact Hok|].
  destruct (Hf r Hok) as ((tco & Eco & Hco & _) & (tre & Ere & Hre)
                          & (tci & Eci & Hci) & Hzi & _ & Htz).
  injection Eco as <-. injection Ere as <-. injection Eci as <-.
  repeat split; assumption.
Defined.

(** X7.  In every result record isp equals organization, the network block
    is either the default one or carries asName = "AS" followed by the
    text of asn, and statusCode, status and ip are 200, "success" and
    the address looked up. *)
Theorem network_block_invariant (db : Databases) (req : Request) (r : Result) :
  snd (lookup db req) = ok r ->
  isp (network r) = organization (network r)
  /\ (network r = default_network
      \/ asName (network r)
         = JString ("AS" ++ js_to_string (asn (network r))))
  /\ statusCode r = JNumber "200"
  /\ status r = JString "success"
  /\ ip r = JString (ipToLookup req).
Proof.
  intros H.
  destruct (isValidIPv4 (ipToLookup req)) eqn:Hv;
    [|rewrite (lookup_invalid db req Hv) in H; discriminate H].
  destruct (loaded db) eqn:L;
    [|rewrite (lookup_unavailable db req Hv L) in H; discriminate H].
  destruct (lookup_cases db req Hv L) as [(loc & _ & R) | (m & _ & R)];
    rewrite R in H; [|discriminate H].
  cbn [snd] in H.
  injection H as <-. cbn [network statusCode status ip].
  unfold lookup_network.
  destruct (ipAsnDB db) as [a|]; cbn [snd]; [|cbn; auto 6].
  destruct (get a (ipToLookup req)) as [rec|]; cbn; auto 6.
Qed.

Lemma network_block_invariant_witness :
  exists r,
    snd (lookup Examples.all_databases (Examples.request_for "8.8.8.8")) = ok r
    /\ isp (network r) = organization (network r)
    /\ asName (network r) = JString "AS15169".
Proof.
  eexists. split; [reflexivity|].
  destruct (@network_block_invariant Examples.all_databases
              (Examples.request_for "8.8.8.8") _ eq_refl) as (H1 & _).
  split; [exact H1 | reflexivity].
Defined.

Lemma member_defined (name : string) (v : jsval) :
  defined v -> exists j, member name v = [(name, j)] /\ shape_of j = Leaf.
Proof.
  unfold defined. destruct v; intros H; [congruence| | |]; eexists;
    (split; [reflexivity|reflexivity]).
Qed.

Lemma shape_when_defined (r : Result) :
  defined (statusCode r) -> defined (status r) -> defined (ip r) ->
  location_defined (location r) -> network_defined (network r) ->
  shape_of (json_of_result r)
  = Node [("statusCode", Leaf); ("status", Leaf); ("ip", Leaf);
          ("location",
           Node [("country", Leaf); ("countryCode", Leaf); ("region", Leaf);
                 ("city", Leaf); ("zipCode", Leaf);
                 ("coordinates",
                  Node [("latitude", Leaf); ("longitude", Leaf)]);
                 ("timezone", Leaf)]);
          ("network",
           Node [("isp", Leaf); ("organization", Leaf); ("asn", Leaf);
                 ("asName", Leaf)])].
Proof.
  intros H1 H2 H3 (L1 & L2 & L3 & L4 & L5 & L6 & L7 & L8) (N1 & N2 & N3 & N4).
  unfold json_of_result.
  destruct (@member_defined "statusCode" _ H1) as (j1 & -> & S1).
  destruct (@member_defined "status" _ H2) as (j2 & -> & S2).
  destruct (@member_defined "ip" _ H3) as (j3 & -> & S3).
  destruct (@member_defined "country" _ L1) as (k1 & -> & T1).
  destruct (@member_defined "countryCode" _ L2) as (k2 & -> & T2).
  destruct (@member_defined "region" _ L3) as (k3 & -> & T3).
  destruct (@member_defined "city" _ L4) as (k4 & -> & T4).
  destruct (@member_defined "zipCode" _ L5) as (k5 & -> & T5).
  destruct (@member_defined "latitude" _ L6) as (k6 & -> & T6).
  destruct (@member_defined "longitude" _ L7) as (k7 & -> & T7).
  destruct (@member_defined "timezone" _ L8) as (k8 & -> & T8).
  destruct (@member_defined "isp" _ N1) as (m1 & -> & U1).
  destruct (@member_defined "organization" _ N2) as (m2 & -> & U2).
  destruct (@member_defined "asn" _ N3) as (m3 & -> & U3).
  destruct (@member_defined "asName" _ N4) as (m4 & -> & U4).
  cbn. rewrite S1, S2, S3, T1, T2, T3, T4, T5, T6, T7, T8, U1, U2, U3, U4.
  reflexivity.
Qed.

Lemma default_location_defined : location_defined default_location.
Proof. unfold location_defined, defined. cbn. repeat split; discriminate. Qed.

Lemma apply_city_defined (rec : CityResponse.t) (l : Location) :
  city_leaves_defined rec ->
  apply_city rec default_location = Done l ->
  location_defined l.
Proof.
  intros (Hco & Hsu & Hci & Hpo & Hlo).
  destruct rec as [co su ci po lo]. cbn in *.
  pose proof default_location_defined as D.
  unfold location_defined, defined in *. unfold apply_city. cbn.
  destruct co as [[[cot|] coi]|];
    [destruct (Hco _ eq_refl) as [Hn ?]; pose proof (Hn _ eq_refl)
    |destruct (Hco _ eq_refl) as [_ ?]|];
  (destruct su as [[|[[sut|]] su]|];
     [|pose proof (Hsu _ _ _ eq_refl eq_refl)| |]);
  (destruct ci as [[[cit|]]|]; [pose proof (Hci _ _ eq_refl eq_refl)| |]);
  (destruct po as [po|]; [pose proof (Hpo po eq_refl)|]);
  (destruct lo as [lo|]; [destruct (Hlo lo eq_refl) as (? & ? & ?)|]);
  cbn; intros E; try discriminate E; injection E as <-;
  cbn; repeat split; first [assumption | discriminate].
Qed.

Lemma apply_country_defined (rec : CountryResponse.t) (l : Location) :
  country_leaves_defined rec ->
  apply_country rec default_location = Done l ->
  location_defined l.
Proof.
  intros Hco. destruct rec as [co]. cbn in *.
  unfold location_defined, defined in *. unfold apply_country. cbn.
  destruct co as [[[cot|] coi]|];
    [destruct (Hco _ eq_refl) as [Hn ?]; pose proof (Hn _ eq_refl)
    |destruct (Hco _ eq_refl) as [_ ?]|];
  cbn; intros E; try discriminate E; injection E as <-;
  cbn; repeat split; first [assumption | discriminate].
Qed.

(** X8.  When the records that answer the request have every property that
    the handler copies, the JSON sent has the members of the default
    record and no field of the result is undefined. *)
Theorem defined_leaves_uniform_shape (db : Databases) (req : Request)
    (r : Result) :
  snd (lookup db req) = ok r ->
  leaves_defined db (ipToLookup req) ->
  shape_of (json_of_result r)
  = shape_of (json_of_result (default_result (ipToLookup req)))
  /\ location_defined (location r) /\ network_defined (network r).
Proof.
  intros H (Hci & Hco & Has).
  destruct (isValidIPv4 (ipToLookup req)) eqn:Hv;
    [|rewrite (lookup_invalid db req Hv) in H; discriminate H].
  destruct (loaded db) eqn:L;
    [|rewrite (lookup_unavailable db req Hv L) in H; discriminate H].
  destruct (lookup_cases db req Hv L) as [(loc & E & R) | (m & _ & R)];
    rewrite R in H; [|discriminate H].
  cbn [snd] in H. injection H as <-.
  assert (HL : location_defined loc).
  { revert E. unfold lookup_location.
    destruct (ipCityDB db) as [c|]; cbn [snd].
    - destruct (get c (ipToLookup req)) as [rec|] eqn:G; cbn [when_try].
      + apply apply_city_defined. exact (Hci c rec eq_refl G).
      + intros E. injection E as <-. apply default_location_defined.
    - destruct (ipCountryDB db) as [k|]; cbn [snd];
        [|intros E; injection E as <-; apply default_location_defined].
      destruct (get k (ipToLookup req)) as [rec|] eqn:G; cbn [when_try].
      + apply apply_country_defined. exact (Hco k rec eq_refl G).
      + intros E. injection E as <-. apply default_location_defined. }
  assert (HN : network_defined (snd (lookup_network db (ipToLookup req)))).
  { unfold lookup_network, network_defined, defined.
    destruct (ipAsnDB db) as [a|]; cbn [snd];
      [|cbn; repeat split; discriminate].
    destruct (get a (ipToLookup req)) as [rec|] eqn:G; cbn [when];
      [|cbn; repeat split; discriminate].
    destruct (Has a rec eq_refl G) as [? ?].
    cbn. repeat split; first [assumption | discriminate]. }
  cbn [location network]. split; [|split; assumption].
  rewrite shape_when_defined; cbn [statusCode status ip location network];
    try assumption; try (unfold defined; discriminate).
  reflexivity.
Qed.

Lemma defined_leaves_uniform_shape_witness :
  exists r,
    snd (lookup Examples.all_databases (Examples.request_for "8.8.8.8")) = ok r
    /\ shape_of (json_of_result r)
       = shape_of (json_of_result (default_result "8.8.8.8")).
Proof.
  eexists. split; [reflexivity|].
  apply (@defined_leaves_uniform_shape Examples.all_databases
           (Examples.request_for "8.8.8.8")).
  - reflexivity.
  - unfold leaves_defined, city_leaves_defined, country_leaves_defined,
      asn_leaves_defined, defined.
    repeat split; intros;
      repeat match goal with
             | H : _ = Some _ |- _ =>
                 vm_compute in H;
                 first [injection H as <- <- | injection H as <-]
             end;
      cbn; discriminate.
Defined.

Lemma lookup_entry_name (name : string) (fs : list entry) (e : entry) :
  lookup_entry name fs = Some e -> entry_name e = name.
Proof.
  induction fs as [|e' rest IH]; simpl; [discriminate|].
  destruct (String.eqb (entry_name e') name) eqn:E; [|exact IH].
  intros H. injection H as <-. apply String.eqb_eq. exact E.
Qed.

Lemma open_if_exists_some {T : Type} (parse : string -> attempt (Reader T))
    (name : string) (fs : list entry) (reader : Reader T) :
  open_if_exists parse name fs = Done (Some reader) <->
  opens_as parse name fs reader.
Proof.
  unfold open_if_exists, opens_as. split.
  - destruct (lookup_entry name fs) as [[n data|n items]|] eqn:E;
      try discriminate.
    pose proof (lookup_entry_name name fs _ E) as Hn. simpl in Hn. subst n.
    destruct (parse data) as [rd|m] eqn:P; [|discriminate].
    intros H. injection H as <-. exists data. auto.
  - intros (data & -> & ->). reflexivity.
Qed.

(** X10.  After initialization a handle is loaded only with the reader
    opened from its own file in the data directory; with none of the
    three files no handle is loaded. *)
Theorem handles_come_from_their_files (o : Opener) (fs : list entry) :
  (forall reader,
      ipCountryDB (initDatabases o fs not_initialized) = Some reader ->
      opens_as (open_country o) countryDbPath fs reader)
  /\ (forall reader,
         ipCityDB (initDatabases o fs not_initialized) = Some reader ->
         opens_as (open_city o) cityDbPath fs reader)
  /\ (forall reader,
         ipAsnDB (initDatabases o fs not_initialized) = Some reader ->
         opens_as (open_asn o) asnDbPath fs reader)
  /\ (lookup_entry countryDbPath fs = None ->
      lookup_entry cityDbPath fs = None ->
      lookup_entry asnDbPath fs = None ->
      initDatabases o fs not_initialized = not_initialized).
Proof.
  unfold initDatabases.
  destruct (open_if_exists (open_country o) countryDbPath fs)
    as [[c|]|m] eqn:Ec;
  destruct (open_if_exists (open_city o) cityDbPath fs)
    as [[k|]|m'] eqn:Ek;
  destruct (open_if_exists (open_asn o) asnDbPath fs)
    as [[a|]|m''] eqn:Ea;
  cbn; repeat split; intros;
    repeat match goal with
           | H : Some _ = Some _ |- _ => injection H as <-
           | H : None = Some _ |- _ => discriminate H
           end;
    try (apply open_if_exists_some; assumption);
    try reflexivity;
    unfold open_if_exists in *;
    repeat match goal with
           | H : lookup_entry _ _ = None |- _ => rewrite H in *
           end; discriminate.
Qed.

(** X9.  The status object of the documentation and admin endpoints tells
    what a lookup of a valid address does: all three "Not loaded" means
    503; city "Loaded" means that the city reader is queried; country
    "Loaded" with city "Not loaded" means that the country reader is
    queried; and the ASN reader is queried exactly when asn is "Loaded"
    and the response is a record, for the 500 of the location block
    comes before the ASN query. *)
Theorem status_page_predicts_lookup (db : Databases) (req : Request) :
  isValidIPv4 (ipToLookup req) = true ->
  (databaseStatus db
   = [("country", "Not loaded"); ("city", "Not loaded"); ("asn", "Not loaded")]
   <-> http_status (snd (lookup db req)) = 503)
  /\ (In ("city", "Loaded") (databaseStatus db)
      <-> In DbCity (map queried (fst (lookup db req))))
  /\ (In ("country", "Loaded") (databaseStatus db)
      /\ In ("city", "Not loaded") (databaseStatus db)
      <-> In DbCountry (map queried (fst (lookup db req))))
  /\ (In ("asn", "Loaded") (databaseStatus db)
      /\ http_status (snd (lookup db req)) = 200
      <-> In DbAsn (map queried (fst (lookup db req))))
  /\ (In ("asn", "Loaded") (databaseStatus db) ->
      In DbAsn (map queried (fst (lookup db req)))
      \/ http_status (snd (lookup db req)) = 500).
Proof.
  intros Hv. unfold databaseStatus.
  destruct (loaded db) eqn:L.
  - destruct (lookup_cases db req Hv L) as [(loc & E & R) | (m & E & R)];
      rewrite R; clear R; rewrite location_queries, ?network_queries;
      cbn [fst snd http_status ok server_error];
      unfold loaded in L; unfold lookup_location in E;
      destruct (ipCityDB db), (ipCountryDB db), (ipAsnDB db); cbn in *;
      try discriminate L; try discriminate E;
      repeat split; intros;
        repeat match goal with
               | H : _ /\ _ |- _ => destruct H
               | H : _ \/ _ |- _ => destruct H
               | H : False |- _ => contradiction
               | H : (_, _) = (_, _) |- _ => discriminate H
               | H : _ :: _ = _ :: _ |- _ => discriminate H
               | H : DbCity = _ |- _ => discriminate H
               | H : DbCountry = _ |- _ => discriminate H
               | H : DbAsn = _ |- _ => discriminate H
               | H : 200 = 503 |- _ => discriminate H
               | H : 500 = 503 |- _ => discriminate H
               | H : 500 = 200 |- _ => discriminate H
               end; auto 6.
  - rewrite (lookup_unavailable db req Hv L). cbn [fst snd http_status unavailable].
    unfold loaded in L. apply negb_false_iff in L.
    destruct (ipCityDB db), (ipCountryDB db), (ipAsnDB db); cbn in *;
      try discriminate L;
      repeat split; intros;
        repeat match goal with
               | H : _ /\ _ |- _ => destruct H
               | H : _ \/ _ |- _ => destruct H
               | H : False |- _ => contradiction
               | H : (_, _) = (_, _) |- _ => discriminate H
               end; auto.
Qed.

Lemma status_page_predicts_lookup_witness :
  In ("asn", "Loaded") (databaseStatus Examples.asn_only)
  /\ In DbAsn (map queried (fst (lookup Examples.asn_only
                                   (Examples.request_for "8.8.8.8"))))
  /\ http_status (snd (lookup Examples.no_databases
                         (Examples.request_for "8.8.8.8"))) = 503.
Proof.
  destruct (@status_page_predicts_lookup Examples.asn_only
              (Examples.request_for "8.8.8.8") eq_refl) as (_ & _ & _ & Ha & _).
  destruct (@status_page_predicts_lookup Examples.no_databases
              (Examples.request_for "8.8.8.8") eq_refl) as (Hn & _).
  split; [cbn; auto|]. split.
  - apply Ha. cbn. auto.
  - apply Hn. reflexivity.
Defined.

(** X11.  A country file that fails to open ends the initialization: no
    handle is loaded, whatever the city and ASN files hold, and every
    valid lookup is answered 503. *)
Theorem unreadable_country_file_blocks_service (o : Opener) (fs : list entry)
    (data message : string) (req : Request) :
  lookup_entry countryDbPath fs = Some (File countryDbPath data) ->
  open_country o data = Thrown message ->
  isValidIPv4 (ipToLookup req) = true ->
  initDatabases o fs not_initialized = not_initialized
  /\ lookup (initDatabases o fs not_initialized) req = ([], unavailable).
Proof.
  intros Hf Ho Hv.
  assert (E : initDatabases o fs not_initialized = not_initialized).
  { unfold initDatabases, open_if_exists. rewrite Hf, Ho. reflexivity. }
  split; [exact E|]. rewrite E. apply lookup_unavailable; [exact Hv|reflexivity].
Qed.


Lemma same_outside_refl (names : list string) (fs : list entry) :
  same_outside names fs fs.
Proof. intros name _. reflexivity. Qed.

Lemma same_outside_trans (names : list string) (fs1 fs2 fs3 : list entry) :
  same_outside names fs1 fs2 -> same_outside names fs2 fs3 ->
  same_outside names fs1 fs3.
Proof. intros H12 H23 name Hn. rewrite (H23 name Hn). apply H12. exact Hn. Qed.

Lemma same_outside_put (names : list string) (e : entry) (fs : list entry) :
  In (entry_name e) names -> same_outside names fs (put_entry e fs).
Proof.
  intros Hin name Hn. apply lookup_put_other. intros E. subst name. auto.
Qed.

Lemma same_outside_remove (names : list string) (n : string) (fs : list entry) :
  In n names -> same_outside names fs (remove_entry n fs).
Proof.
  intros Hin name Hn. apply lookup_remove_other. intros E. subst name. auto.
Qed.

Lemma same_outside_more (names names' : list string) (fs fs' : list entry) :
  incl names names' -> same_outside names fs fs' -> same_outside names' fs fs'.
Proof. intros Hi H name Hn. apply H. intros Hin. apply Hn, Hi, Hin. Qed.

Lemma unlinkSync_done (name : string) (fs fs' : list entry) :
  unlinkSync name fs = Done fs' -> fs' = remove_entry name fs.
Proof.
  unfold unlinkSync. destruct (lookup_entry name fs) as [[? ?|? ?]|];
    intros E; try discriminate. injection E as <-. reflexivity.
Qed.

Section RefreshFrame.

Variable tar_extract : string -> list entry -> attempt (list entry).

(** Where the [try] block leaves the data directory: a throw comes
    before the copy, so only the two scratch names can differ. *)
Lemma try_block_frame (type : string) (response : attempt string)
    (fs fs' : list entry) (r : attempt unit) :
  try_block tar_extract type response fs = (fs', r) ->
  match r with
  | Done _ =>
      same_outside [tempFile_of type; tempDir_of type; destPath_of type] fs fs'
  | Thrown _ => same_outside [tempFile_of type; tempDir_of type] fs fs'
  end.
Proof.
  unfold try_block. destruct response as [data|m0].
  2:{ intros E. injection E as <- <-. apply same_outside_refl. }
  destruct (writeFileSync (tempFile_of type) data fs) as [fs1|m] eqn:W.
  2:{ intros E. injection E as <- <-. apply same_outside_refl. }
  apply writeFileSync_done in W.
  set (two := [tempFile_of type; tempDir_of type]).
  assert (F1 : same_outside two fs fs1).
  { rewrite W. apply same_outside_put. simpl. auto. }
  set (fs2 := if existsSync (tempDir_of type) fs1 then fs1
              else mkdirSync (tempDir_of type) fs1).
  assert (F2 : same_outside two fs fs2).
  { subst fs2. destruct (existsSync (tempDir_of type) fs1); [exact F1|].
    eapply same_outside_trans; [exact F1|].
    apply same_outside_put. simpl. auto. }
  assert (P2 : exists d, lookup_entry (tempFile_of type) fs2
                         = Some (File (tempFile_of type) d)).
  { exists data. subst fs2.
    assert (P1 : lookup_entry (tempFile_of type) fs1
                 = Some (File (tempFile_of type) data))
      by (rewrite W; apply (lookup_put_same (File (tempFile_of type) data))).
    destruct (existsSync (tempDir_of type) fs1); [exact P1|].
    unfold mkdirSync. rewrite lookup_put_other; [exact P1|].
    simpl. intros E. symmetry in E. exact (tempFile_not_tempDir type E). }
  clearbody fs2.
  destruct (match lookup_entry (tempDir_of type) fs2 with
            | Some (Dir _ items) => tar_extract data items
            | _ => Thrown "ENOTDIR: not a directory"
            end) as [items|m] eqn:T.
  2:{ intros E. injection E as <- <-. exact F2. }
  set (fs3 := put_entry (Dir (tempDir_of type) items) fs2).
  assert (F3 : same_outside two fs fs3).
  { eapply same_outside_trans; [exact F2|].
    apply same_outside_put. simpl. auto. }
  assert (P3 : exists d, lookup_entry (tempFile_of type) fs3
                         = Some (File (tempFile_of type) d)).
  { destruct P2 as [d P2]. exists d. subst fs3.
    rewrite lookup_put_other; [exact P2|].
    simpl. intros E. symmetry in E. exact (tempFile_not_tempDir type E). }
  clearbody fs3.
  destruct (findMmdbFile [tempDir_of type] items) as [p|].
  2:{ intros E. injection E as <- <-. exact F3. }
  destruct (copyFileSync p (destPath_of type) fs3) as [fs4|m] eqn:K.
  2:{ intros E. injection E as <- <-. exact F3. }
  apply copyFileSync_done in K. destruct K as [d K].
  destruct P3 as [d3 P3].
  assert (P4 : lookup_entry (tempFile_of type) fs4
               = Some (File (tempFile_of type) d3)).
  { rewrite K, lookup_put_other; [exact P3|]. simpl.
    apply destPath_not_tempFile. }
  unfold unlinkSync. rewrite P4. intros E. injection E as <- <-.
  set (three := [tempFile_of type; tempDir_of type; destPath_of type]).
  assert (I2 : incl two three) by (intros x [<- | [<- | []]]; simpl; auto).
  subst fs4.
  apply (@same_outside_trans three fs fs3);
    [exact (@same_outside_more _ _ _ _ I2 F3)|].
  apply (@same_outside_trans three fs3
           (put_entry (File (destPath_of type) d) fs3));
    [apply same_outside_put; simpl; auto|].
  apply (@same_outside_trans three _
           (remove_entry (tempFile_of type)
              (put_entry (File (destPath_of type) d) fs3)));
    [apply same_outside_remove; simpl; auto|].
  unfold rmSync. apply same_outside_remove. simpl. auto.
Qed.

Lemma job_same_outside (type : string) (response : attempt string)
    (fs : list entry) :
  same_outside (job_names type) fs
    (fst (downloadAndExtractDatabase tar_extract type response fs)).
Proof.
  unfold downloadAndExtractDatabase, job_names.
  destruct (try_block tar_extract type response fs) as [fs1 [u|m]] eqn:T;
    apply try_block_frame in T; [exact T|].
  assert (I2 : incl [tempFile_of type; tempDir_of type]
                    [tempFile_of type; tempDir_of type; destPath_of type])
    by (intros x [<- | [<- | []]]; simpl; auto).
  apply (@same_outside_more _ _ _ _ I2) in T.
  destruct (existsSync (tempFile_of type) fs1); [|exact T].
  destruct (unlinkSync (tempFile_of type) fs1) as [fs2|m'] eqn:U; [|exact T].
  apply unlinkSync_done in U. subst fs2. cbn [fst].
  eapply same_outside_trans; [exact T|].
  apply same_outside_remove. simpl. auto.
Qed.

(** X12.  One run of the job changes the data directory under its archive,
    its scratch directory and its destination file only; a run that does
    not end in success leaves the destination file as it was. *)
Theorem refresh_touches_its_own_names (type : string)
    (response : attempt string) (fs : list entry) :
  same_outside (job_names type) fs
    (fst (downloadAndExtractDatabase tar_extract type response fs))
  /\ (snd (downloadAndExtractDatabase tar_extract type response fs) <> Updated ->
      same_outside [tempFile_of type; tempDir_of type] fs
        (fst (downloadAndExtractDatabase tar_extract type response fs))
      /\ lookup_entry (destPath_of type)
           (fst (downloadAndExtractDatabase tar_extract type response fs))
         = lookup_entry (destPath_of type) fs).
Proof.
  split; [apply job_same_outside|].
  set (two := [tempFile_of type; tempDir_of type]).
  assert (Hd : ~ In (destPath_of type) two).
  { intros [E | [E | []]]; symmetry in E.
    - exact (destPath_not_tempFile type E).
    - exact (destPath_not_tempDir type E). }
  unfold downloadAndExtractDatabase.
  destruct (try_block tar_extract type response fs) as [fs1 [u|m]] eqn:T;
    apply try_block_frame in T.
  - cbn [snd]. intros H. congruence.
  - intros _.
    assert (F : same_outside two fs
                  (fst (if existsSync (tempFile_of type) fs1
                        then match unlinkSync (tempFile_of type) fs1 with
                             | Done fs'' => (fs'', Failed m)
                             | Thrown message' => (fs1, Rejected message')
                             end
                        else (fs1, Failed m)))).
    { destruct (existsSync (tempFile_of type) fs1); [|exact T].
      destruct (unlinkSync (tempFile_of type) fs1) as [fs2|m'] eqn:U;
        [|exact T].
      apply unlinkSync_done in U. subst fs2. cbn [fst].
      eapply same_outside_trans; [exact T|].
      apply same_outside_remove. simpl. auto. }
    split; [exact F|]. apply F. exact Hd.
Qed.

End RefreshFrame.

Lemma unique_entry_dir (name : string) (items : list entry) :
  unique_entry (Dir name items) <-> unique_names items.
Proof.
  unfold unique_names. simpl. split; intros [Hn Hu]; (split; [exact Hn|]).
  - induction items as [|e rest IH]; [constructor|].
    destruct Hu as [He Hr]. constructor; [exact He|].
    apply IH; [inversion Hn; assumption | exact Hr].
  - induction Hu as [|e rest He _ IH]; [exact I|].
    split; [exact He|]. apply IH. inversion Hn; assumption.
Qed.

Lemma payload_data_of_dir (name : string) (sub : list entry) :
  payload_data_of (Dir name sub) = payload_data sub.
Proof.
  simpl. induction sub as [|e rest IH]; simpl; [reflexivity|].
  rewrite IH. reflexivity.
Qed.

Lemma substring_split (k : nat) (s : string) :
  k <= String.length s ->
  s = (String.substring 0 k s
       ++ String.substring k (String.length s - k) s)%string.
Proof.
  revert k. induction s as [|c s IH]; intros k Hk.
  - destruct k; reflexivity.
  - destruct k as [|k]; simpl.
    + rewrite substring_all. reflexivity.
    + simpl in Hk. rewrite <- IH by lia. reflexivity.
Qed.

Lemma endsWith_suffix (item suffix : string) :
  endsWith item suffix = true -> exists pre, item = (pre ++ suffix)%string.
Proof.
  unfold endsWith. intros H. apply andb_true_iff in H. destruct H as [Hl He].
  apply Nat.leb_le in Hl. apply String.eqb_eq in He.
  exists (String.substring 0 (String.length item - String.length suffix) item).
  assert (Hk : String.length item - String.length suffix <= String.length item)
    by lia.
  pose proof (substring_split _ item Hk) as S.
  replace (String.length item - (String.length item - String.length suffix))
    with (String.length suffix) in S by lia.
  rewrite He in S. exact S.
Qed.

Lemma lookup_entry_in (name : string) (fs : list entry) (e : entry) :
  lookup_entry name fs = Some e -> In name (map entry_name fs).
Proof.
  induction fs as [|e' rest IH]; simpl; [discriminate|].
  destruct (String.eqb (entry_name e') name) eqn:E.
  - intros _. left. apply String.eqb_eq. exact E.
  - intros H. right. apply IH. exact H.
Qed.

Lemma read_path_head (rel : path) (items : list entry) (e : entry) :
  read_path rel items = Some e ->
  exists n below, rel = n :: below /\ In n (map entry_name items).
Proof.
  destruct rel as [|n below]; simpl; [discriminate|].
  intros H. exists n, below. split; [reflexivity|].
  destruct below as [|m below'].
  - eapply lookup_entry_in. exact H.
  - destruct (lookup_entry n items) as [e0|] eqn:E; [|discriminate].
    eapply lookup_entry_in. exact E.
Qed.

Lemma read_path_skip (rel : path) (e0 : entry) (items : list entry)
    (e : entry) :
  ~ In (entry_name e0) (map entry_name items) ->
  read_path rel items = Some e ->
  read_path rel (e0 :: items) = Some e.
Proof.
  intros Hn H. destruct (read_path_head rel items e H) as (n & below & -> & Hin).
  assert (E : String.eqb (entry_name e0) n = false).
  { apply String.eqb_neq. intros E'. rewrite <- E' in Hin. exact (Hn Hin). }
  destruct below as [|m below']; cbn [read_path lookup_entry] in *;
    rewrite E; exact H.
Qed.

Lemma search_result_cons (dir : path) (e : entry) (rest : list entry) :
  ~ In (entry_name e) (map entry_name rest) ->
  search_result dir [e] (visit dir e) ->
  search_result dir rest (findMmdbFile dir rest) ->
  search_result dir (e :: rest) (findMmdbFile dir (e :: rest)).
Proof.
  intros Hn He Hr. cbn [findMmdbFile].
  destruct (visit dir e) as [p|].
  - destruct He as (rel & name & pre & data & Hp & Hne & Hread & Hname & Hlast & Hhd).
    exists rel, name, pre, data. repeat split; try assumption.
    + destruct rel as [|n below]; [congruence|].
      simpl in Hread |- *.
      destruct (String.eqb (entry_name e) n); [exact Hread|].
      destruct below; discriminate.
    + cbn [payload_data] in Hhd |- *. rewrite app_nil_r in Hhd.
      rewrite hd_error_app, Hhd. reflexivity.
  - cbn [search_result payload_data] in He. rewrite app_nil_r in He.
    destruct (findMmdbFile dir rest) as [p|].
    + destruct Hr as (rel & name & pre & data & Hp & Hne & Hread & Hname & Hlast & Hhd).
      exists rel, name, pre, data. repeat split; try assumption.
      * apply read_path_skip; assumption.
      * cbn [payload_data]. rewrite He. exact Hhd.
    + cbn [search_result payload_data] in *. rewrite He, Hr. reflexivity.
Qed.

Lemma search_result_items (items : list entry) :
  Forall (fun e => unique_entry e ->
                   forall dir, search_result dir [e] (visit dir e)) items ->
  unique_names items ->
  forall dir, search_result dir items (findMmdbFile dir items).
Proof.
  intros HP [Hn Hu] dir. induction HP as [|e rest He _ IH].
  - reflexivity.
  - inversion Hn as [|? ? Hnot Hn']. inversion Hu as [|? ? Hue Hur]. subst.
    apply search_result_cons; [exact Hnot | apply He; exact Hue | apply IH; assumption].
Qed.

Lemma search_result_entry (e : entry) :
  unique_entry e -> forall dir, search_result dir [e] (visit dir e).
Proof.
  induction e as [name data | name items IH] using entry_induction;
    intros Hu dir.
  - cbn [visit]. destruct (endsWith name ".mmdb") eqn:E.
    + destruct (endsWith_suffix name ".mmdb" E) as [pre Hpre].
      exists [name], name, pre, data. unfold join.
      repeat split; try reflexivity; try assumption; try discriminate.
      * simpl. rewrite String.eqb_refl. reflexivity.
      * cbn. rewrite E. reflexivity.
    + cbn. rewrite E. reflexivity.
  - apply unique_entry_dir in Hu.
    pose proof (search_result_items items IH Hu (join dir name)) as H.
    rewrite visit_dir.
    destruct (findMmdbFile (join dir name) items) as [p|].
    + destruct H as (rel & n & pre & data & Hp & Hne & Hread & Hname & Hlast & Hhd).
      exists (name :: rel), n, pre, data. unfold join in Hp.
      repeat split; try assumption.
      * rewrite Hp, <- app_assoc. reflexivity.
      * discriminate.
      * destruct rel as [|m below]; [congruence|].
        cbn [read_path lookup_entry entry_name]. rewrite String.eqb_refl.
        exact Hread.
      * destruct rel as [|m below]; [congruence|]. exact Hlast.
      * cbn [payload_data]. rewrite app_nil_r, payload_data_of_dir. exact Hhd.
    + cbn [search_result payload_data] in *.
      rewrite app_nil_r, payload_data_of_dir. exact H.
Qed.

(** X13.  In a tree without duplicate names the search returns a path
    below the start directory that reads back as a regular file whose
    name ends in .mmdb, the first one of the depth-first walk; it
    returns nothing exactly when the walk meets no such file. *)
Theorem search_reads_back (dir : path) (items : list entry) :
  unique_names items ->
  search_result dir items (findMmdbFile dir items).
Proof.
  intros Hu. apply search_result_items; [|exact Hu].
  apply Forall_forall. intros e _. apply search_result_entry.
Qed.

Lemma remove_put_same (e : entry) (fs : list entry) :
  remove_entry (entry_name e) (put_entry e fs) = remove_entry (entry_name e) fs.
Proof.
  unfold remove_entry. induction fs as [|x r IH]; simpl.
  - rewrite String.eqb_refl. reflexivity.
  - destruct (String.eqb (entry_name x) (entry_name e)) eqn:E; simpl.
    + rewrite String.eqb_refl. reflexivity.
    + rewrite E. simpl. rewrite IH. reflexivity.
Qed.

Lemma remove_put_other (e : entry) (n : string) (fs : list entry) :
  entry_name e <> n ->
  remove_entry n (put_entry e fs) = put_entry e (remove_entry n fs).
Proof.
  intros Hn. apply String.eqb_neq in Hn.
  unfold remove_entry. induction fs as [|x r IH]; simpl.
  - rewrite Hn. reflexivity.
  - destruct (String.eqb (entry_name x) (entry_name e)) eqn:E; simpl.
    + rewrite Hn. apply String.eqb_eq in E. rewrite E, Hn. simpl.
      rewrite <- E, String.eqb_refl. reflexivity.
    + destruct (String.eqb (entry_name x) n) eqn:E'; simpl.
      * exact IH.
      * rewrite E, IH. reflexivity.
Qed.

Lemma remove_absent (n : string) (fs : list entry) :
  lookup_entry n fs = None -> remove_entry n fs = fs.
Proof.
  unfold remove_entry. induction fs as [|x r IH]; simpl; [reflexivity|].
  destruct (String.eqb (entry_name x) n); [discriminate|].
  intros H. simpl. rewrite IH by exact H. reflexivity.
Qed.

Lemma put_put_same (e e' : entry) (fs : list entry) :
  entry_name e = entry_name e' ->
  put_entry e' (put_entry e fs) = put_entry e' fs.
Proof.
  intros Hn.
  assert (Hb : forall y, String.eqb (entry_name y) (entry_name e')
                         = String.eqb (entry_name y) (entry_name e))
    by (intros y; rewrite Hn; reflexivity).
  induction fs as [|x r IH]; cbn [put_entry].
  - rewrite Hb, String.eqb_refl. reflexivity.
  - rewrite Hb.
    destruct (String.eqb (entry_name x) (entry_name e)) eqn:E;
      cbn [put_entry]; rewrite Hb.
    + rewrite String.eqb_refl. reflexivity.
    + rewrite E, IH. reflexivity.
Qed.

Section RefreshState.

Variable tar_extract : string -> list entry -> attempt (list entry).

(** The data directory after a run that succeeds: the payload is in
    place and an archive left from before is gone. *)
Lemma refresh_success_state (type data : string) (fs items : list entry)
    (payload : string) :
  (forall n l, lookup_entry (tempFile_of type) fs <> Some (Dir n l)) ->
  lookup_entry (tempDir_of type) fs = None ->
  (forall n l, lookup_entry (destPath_of type) fs <> Some (Dir n l)) ->
  tar_extract data [] = Done items ->
  unique_names items ->
  hd_error (payload_data items) = Some payload ->
  downloadAndExtractDatabase tar_extract type (Done data) fs
  = (put_entry (File (destPath_of type) payload)
       (remove_entry (tempFile_of type) fs), Updated).
Proof.
  intros Hw Hd Hdest Ht Hu Hp.
  assert (S : search_result [tempDir_of type] items
                (findMmdbFile [tempDir_of type] items)).
  { apply search_result_items; [|exact Hu].
    apply Forall_forall. intros e _. apply search_result_entry. }
  destruct (findMmdbFile [tempDir_of type] items) as [p|] eqn:F;
    [|cbn in S; rewrite S in Hp; discriminate Hp].
  destruct S as (rel & name & pre & payload' & Ep & Hne & Hread & _ & _ & Hhd).
  assert (payload' = payload) by congruence. subst payload'.
  unfold downloadAndExtractDatabase, try_block.
  assert (W : writeFileSync (tempFile_of type) data fs
              = Done (put_entry (File (tempFile_of type) data) fs)).
  { unfold writeFileSync.
    destruct (lookup_entry (tempFile_of type) fs) as [[? ?|n l]|] eqn:E;
      try reflexivity. elim (Hw n l). reflexivity. }
  rewrite W. set (fs1 := put_entry (File (tempFile_of type) data) fs).
  assert (X : existsSync (tempDir_of type) fs1 = false).
  { apply existsSync_false. subst fs1. rewrite lookup_put_other; [exact Hd|].
    simpl. apply tempFile_not_tempDir. }
  rewrite X. unfold mkdirSync.
  rewrite (lookup_put_same (Dir (tempDir_of type) [])), Ht, F.
  set (fs2 := put_entry (Dir (tempDir_of type) []) fs1).
  set (fs3 := put_entry (Dir (tempDir_of type) items) fs2).
  assert (F3 : lookup_entry (tempFile_of type) fs3
               = Some (File (tempFile_of type) data)).
  { subst fs3 fs2 fs1.
    rewrite !lookup_put_other
      by (simpl; intros E; symmetry in E; exact (tempFile_not_tempDir type E)).
    apply (lookup_put_same (File (tempFile_of type) data)). }
  assert (D3 : lookup_entry (destPath_of type) fs3
               = lookup_entry (destPath_of type) fs).
  { subst fs3 fs2 fs1.
    rewrite !lookup_put_other; [reflexivity | | | ]; simpl; intros E;
      symmetry in E;
      first [exact (destPath_not_tempFile type E)
            | exact (destPath_not_tempDir type E)]. }
  assert (R3 : read_path p fs3 = Some (File name payload)).
  { rewrite Ep. destruct rel as [|r0 rel']; [congruence|].
    cbn [app read_path]. subst fs3.
    rewrite (lookup_put_same (Dir (tempDir_of type) items)). exact Hread. }
  assert (K : copyFileSync p (destPath_of type) fs3
              = Done (put_entry (File (destPath_of type) payload) fs3)).
  { unfold copyFileSync, writeFileSync. rewrite R3, D3.
    destruct (lookup_entry (destPath_of type) fs) as [[? ?|n l]|] eqn:E;
      try reflexivity. elim (Hdest n l). reflexivity. }
  rewrite K. unfold unlinkSync.
  rewrite lookup_put_other by (simpl; apply destPath_not_tempFile).
  rewrite F3. f_equal. unfold rmSync. subst fs3 fs2 fs1.
  set (tF := tempFile_of type). set (tD := tempDir_of type).
  set (dP := destPath_of type).
  assert (N1 : dP <> tF) by apply destPath_not_tempFile.
  assert (N2 : dP <> tD) by apply destPath_not_tempDir.
  assert (N3 : tF <> tD) by apply tempFile_not_tempDir.
  assert (N4 : tD <> tF) by congruence.
  rewrite (remove_put_other (File dP payload) tF) by exact N1.
  rewrite (remove_put_other (File dP payload) tD) by exact N2.
  f_equal.
  rewrite (remove_put_other (Dir tD items) tF) by exact N4.
  rewrite (remove_put_other (Dir tD []) tF) by exact N4.
  rewrite (remove_put_same (File tF data)).
  rewrite (remove_put_same (Dir tD items)).
  rewrite (remove_put_same (Dir tD [])).
  apply remove_absent. cbn [entry_name].
  rewrite lookup_remove_other by exact N3. exact Hd.
Qed.

End RefreshState.

Lemma refresh_success
    (tar_extract : string -> list entry -> attempt (list entry))
    (type data : string) (fs items : list entry) (payload : string) :
  (forall n l, lookup_entry (tempFile_of type) fs <> Some (Dir n l)) ->
  lookup_entry (tempDir_of type) fs = None ->
  (forall n l, lookup_entry (destPath_of type) fs <> Some (Dir n l)) ->
  tar_extract data [] = Done items ->
  unique_names items ->
  hd_error (payload_data items) = Some payload ->
  snd (downloadAndExtractDatabase tar_extract type (Done data) fs) = Updated
  /\ lookup_entry (destPath_of type)
       (fst (downloadAndExtractDatabase tar_extract type (Done data) fs))
     = Some (File (destPath_of type) payload).
Proof.
  intros Hw Hd Hdest Ht Hu Hp.
  rewrite (refresh_success_state tar_extract type data fs items payload
             Hw Hd Hdest Ht Hu Hp).
  cbn [fst snd]. split; [reflexivity|].
  apply (lookup_put_same (File (destPath_of type) payload)).
Qed.

(** ** The payload that the job publishes *)




(** X14.  On a data directory without a scratch directory left over, an
    archive that extracts to a tree with a payload makes the job succeed:
    the destination file holds the bytes of the first payload and both
    scratch artifacts are gone. *)
Theorem refresh_publishes_first_payload
    (tar_extract : string -> list entry -> attempt (list entry))
    (type data : string) (fs items : list entry) :
  (forall n l, lookup_entry (tempFile_of type) fs <> Some (Dir n l)) ->
  lookup_entry (tempDir_of type) fs = None ->
  (forall n l, lookup_entry (destPath_of type) fs <> Some (Dir n l)) ->
  tar_extract data [] = Done items ->
  unique_names items ->
  payload_data items <> [] ->
  exists payload,
    hd_error (payload_data items) = Some payload
    /\ snd (downloadAndExtractDatabase tar_extract type (Done data) fs)
       = Updated
    /\ lookup_entry (destPath_of type)
         (fst (downloadAndExtractDatabase tar_extract type (Done data) fs))
       = Some (File (destPath_of type) payload)
    /\ existsSync (tempFile_of type)
         (fst (downloadAndExtractDatabase tar_extract type (Done data) fs))
       = false
    /\ existsSync (tempDir_of type)
         (fst (downloadAndExtractDatabase tar_extract type (Done data) fs))
       = false.
Proof.
  intros Hw Hd Hdest Ht Hu Hp.
  destruct (payload_data items) as [|payload more] eqn:E; [congruence|].
  exists payload. split; [reflexivity|].
  assert (Hhd : hd_error (payload_data items) = Some payload)
    by (rewrite E; reflexivity).
  destruct (refresh_success tar_extract type data fs items payload
              Hw Hd Hdest Ht Hu Hhd) as [Hs Hl].
  split; [exact Hs|]. split; [exact Hl|].
  apply (updated_run_removes_scratch tar_extract type data fs).
  destruct (downloadAndExtractDatabase tar_extract type (Done data) fs)
    as [fs' out]. cbn [snd] in Hs. subst out. reflexivity.
Qed.

Lemma refresh_publishes_first_payload_witness :
  snd (downloadAndExtractDatabase Archives.tar_extract "city"
         (Done "archive with two payloads") []) = Updated
  /\ lookup_entry "GeoLite2-City.mmdb"
       (fst (downloadAndExtractDatabase Archives.tar_extract "city"
               (Done "archive with two payloads") []))
     = Some (File "GeoLite2-City.mmdb" "payload of last week").
Proof.
  destruct (@refresh_publishes_first_payload Archives.tar_extract "city"
              "archive with two payloads" [] Archives.with_two_payloads)
    as (payload & Hhd & Hs & Hl & _).
  - intros n l. discriminate.
  - reflexivity.
  - intros n l. discriminate.
  - reflexivity.
  - unfold unique_names, Archives.with_two_payloads. split.
    + repeat constructor; simpl; intuition discriminate.
    + repeat constructor; simpl; intuition discriminate.
  - discriminate.
  - injection Hhd as <-. split; [exact Hs | exact Hl].
Defined.

Section RefreshTwice.

Variable tar_extract : string -> list entry -> attempt (list entry).

(** X15.  Running the job again with the same archive, after a run that
    succeeded, leaves the data directory and the outcome exactly as the
    first run left them. *)
Theorem refresh_is_idempotent (type data : string) (fs items : list entry) :
  (forall n l, lookup_entry (tempFile_of type) fs <> Some (Dir n l)) ->
  lookup_entry (tempDir_of type) fs = None ->
  (forall n l, lookup_entry (destPath_of type) fs <> Some (Dir n l)) ->
  tar_extract data [] = Done items ->
  unique_names items ->
  payload_data items <> [] ->
  snd (downloadAndExtractDatabase tar_extract type (Done data) fs) = Updated
  /\ downloadAndExtractDatabase tar_extract type (Done data)
       (fst (downloadAndExtractDatabase tar_extract type (Done data) fs))
     = downloadAndExtractDatabase tar_extract type (Done data) fs.
Proof.
  intros Hw Hd Hdest Ht Hu Hp.
  destruct (payload_data items) as [|payload more] eqn:E; [congruence|].
  assert (Hhd : hd_error (payload_data items) = Some payload)
    by (rewrite E; reflexivity).
  rewrite (refresh_success_state tar_extract type data fs items payload
             Hw Hd Hdest Ht Hu Hhd).
  cbn [fst snd]. split; [reflexivity|].
  set (fs1 := put_entry (File (destPath_of type) payload)
                (remove_entry (tempFile_of type) fs)).
  assert (A1 : lookup_entry (tempFile_of type) fs1 = None).
  { subst fs1. rewrite lookup_put_other by (simpl; apply destPath_not_tempFile).
    apply lookup_remove_same. }
  assert (A2 : lookup_entry (tempDir_of type) fs1 = None).
  { subst fs1. rewrite lookup_put_other by (simpl; apply destPath_not_tempDir).
    rewrite lookup_remove_other by apply tempFile_not_tempDir. exact Hd. }
  assert (A3 : lookup_entry (destPath_of type) fs1
               = Some (File (destPath_of type) payload)).
  { subst fs1. apply (lookup_put_same (File (destPath_of type) payload)). }
  rewrite (refresh_success_state tar_extract type data fs1 items payload).
  - f_equal. rewrite (remove_absent _ _ A1). subst fs1.
    apply put_put_same. reflexivity.
  - intros n l. rewrite A1. discriminate.
  - exact A2.
  - intros n l. rewrite A3. discriminate.
  - exact Ht.
  - exact Hu.
  - exact Hhd.
Qed.

End RefreshTwice.

Lemma refresh_is_idempotent_witness :
  snd (downloadAndExtractDatabase Archives.tar_extract "country"
         (Done "archive with one payload") []) = Updated
  /\ downloadAndExtractDatabase Archives.tar_extract "country"
       (Done "archive with one payload")
       (fst (downloadAndExtractDatabase Archives.tar_extract "country"
               (Done "archive with one payload") []))
     = downloadAndExtractDatabase Archives.tar_extract "country"
         (Done "archive with one payload") [].
Proof.
  apply (@refresh_is_idempotent Archives.tar_extract "country"
           "archive with one payload" [] Archives.with_one_payload).
  - intros n l. discriminate.
  - reflexivity.
  - intros n l. discriminate.
  - reflexivity.
  - unfold unique_names, Archives.with_one_payload.
    split; repeat constructor; simpl; intuition discriminate.
  - discriminate.
Defined.

Section UpdateFacts.

Variable tar_extract : string -> list entry -> attempt (list entry).

Lemma job_not_rejected (type : string) (response : attempt string)
    (fs : list entry) (message : string) :
  archive_slot_free type fs ->
  snd (downloadAndExtractDatabase tar_extract type response fs)
  <> Rejected message.
Proof.
  intros Hfree. unfold downloadAndExtractDatabase.
  destruct (try_block tar_extract type response fs) as [fs1 [u|m]] eqn:T;
    [discriminate|].
  assert (H : (exists d, lookup_entry (tempFile_of type) fs1
                         = Some (File (tempFile_of type) d))
              \/ lookup_entry (tempFile_of type) fs1 = None).
  { destruct response as [data|m0].
    - apply try_block_cases in T.
      destruct T as [[-> (n & l & Hd)] | [Hf _]]; [|left; exact Hf].
      elim (Hfree n l Hd).
    - unfold try_block in T. injection T as <- <-.
      destruct (lookup_entry (tempFile_of type) fs) as [[n d|n l]|] eqn:E.
      + left. exists d. rewrite <- (lookup_entry_name _ _ _ E). reflexivity.
      + elim (Hfree n l E).
      + right. reflexivity. }
  unfold existsSync, unlinkSync.
  destruct H as [[d ->] | ->]; cbn; discriminate.
Qed.

Lemma update_same_outside (responses : string -> attempt string)
    (fs : list entry) :
  same_outside (job_names "country" ++ job_names "city" ++ job_names "asn")
    fs (fst (updateAllDatabases tar_extract responses fs)).
Proof.
  set (all := job_names "country" ++ job_names "city" ++ job_names "asn").
  assert (I1 : incl (job_names "country") all)
    by (apply incl_appl, incl_refl).
  assert (I2 : incl (job_names "city") all)
    by (apply incl_appr, incl_appl, incl_refl).
  assert (I3 : incl (job_names "asn") all)
    by (apply incl_appr, incl_appr, incl_refl).
  pose proof (@same_outside_more _ _ _ _ I1
                (job_same_outside tar_extract "country" (responses "country") fs)) as F1.
  unfold updateAllDatabases.
  destruct (downloadAndExtractDatabase tar_extract "country"
              (responses "country") fs) as [fs1 o1].
  cbn [fst] in F1.
  pose proof (@same_outside_more _ _ _ _ I2
                (job_same_outside tar_extract "city" (responses "city") fs1)) as F2.
  destruct (downloadAndExtractDatabase tar_extract "city"
              (responses "city") fs1) as [fs2 o2].
  cbn [fst] in F2.
  pose proof (@same_outside_more _ _ _ _ I3
                (job_same_outside tar_extract "asn" (responses "asn") fs2)) as F3.
  destruct (downloadAndExtractDatabase tar_extract "asn"
              (responses "asn") fs2) as [fs3 o3].
  cbn [fst] in F3.
  pose proof (same_outside_trans all fs fs1 fs2 F1 F2) as F12.
  pose proof (same_outside_trans all fs fs2 fs3 F12 F3) as F123.
  destruct o1; [| |exact F1]; (destruct o2; [| |exact F12]);
    destruct o3; exact F123.
Qed.

End UpdateFacts.

Lemma init_without_asn_file (o : Opener) (fs : list entry) (db : Databases) :
  lookup_entry asnDbPath fs = None ->
  ipAsnDB (initDatabases o fs db) = ipAsnDB db.
Proof.
  intros H. unfold initDatabases.
  assert (E : open_if_exists (open_asn o) asnDbPath fs = Done None)
    by (unfold open_if_exists; rewrite H; reflexivity).
  rewrite E.
  destruct (open_if_exists (open_country o) countryDbPath fs) as [[c|]|m];
    [| |reflexivity];
    (destruct (open_if_exists (open_city o) cityDbPath fs) as [[k|]|m'];
     reflexivity).
Qed.

(** X18.  The script publishes the ASN database under a name that differs
    in case from the one the server opens: on a data directory without
    GeoLite2-ASN.mmdb, after any run of the script the server loads no
    ASN reader and every result carries the default network block. *)
Theorem refreshed_asn_is_never_loaded
    (tar_extract : string -> list entry -> attempt (list entry))
    (responses : string -> attempt string) (o : Opener) (fs : list entry) :
  lookup_entry asnDbPath fs = None ->
  lookup_entry asnDbPath (fst (updateAllDatabases tar_extract responses fs))
  = None
  /\ ipAsnDB (initDatabases o
                (fst (updateAllDatabases tar_extract responses fs))
                not_initialized) = None
  /\ forall req r,
       snd (lookup (initDatabases o
                      (fst (updateAllDatabases tar_extract responses fs))
                      not_initialized) req) = ok r ->
       network r = default_network.
Proof.
  intros H.
  assert (E : lookup_entry asnDbPath
                (fst (updateAllDatabases tar_extract responses fs)) = None).
  { rewrite (update_same_outside tar_extract responses fs); [exact H|].
    cbv. intuition discriminate. }
  assert (A : ipAsnDB (initDatabases o
                (fst (updateAllDatabases tar_extract responses fs))
                not_initialized) = None).
  { rewrite init_without_asn_file by exact E. reflexivity. }
  split; [exact E|]. split; [exact A|].
  intros req r Hr.
  set (db := initDatabases o
               (fst (updateAllDatabases tar_extract responses fs))
               not_initialized) in *.
  destruct (isValidIPv4 (ipToLookup req)) eqn:Hv;
    [|rewrite (lookup_invalid db req Hv) in Hr; discriminate Hr].
  destruct (loaded db) eqn:L;
    [|rewrite (lookup_unavailable db req Hv L) in Hr; discriminate Hr].
  destruct (lookup_cases db req Hv L) as [(loc & _ & R) | (m & _ & R)];
    rewrite R in Hr; [|discriminate Hr].
  cbn [snd] in Hr.
  injection Hr as <-. cbn [network]. unfold lookup_network. rewrite A.
  reflexivity.
Qed.

Lemma lookup_put (e : entry) (name : string) (fs : list entry) :
  lookup_entry name (put_entry e fs)
  = if String.eqb (entry_name e) name then Some e else lookup_entry name fs.
Proof.
  destruct (String.eqb (entry_name e) name) eqn:E.
  - apply String.eqb_eq in E. subst name. apply lookup_put_same.
  - apply String.eqb_neq in E. apply lookup_put_other. exact E.
Qed.

Lemma lookup_remove (other name : string) (fs : list entry) :
  lookup_entry name (remove_entry other fs)
  = if String.eqb other name then None else lookup_entry name fs.
Proof.
  destruct (String.eqb other name) eqn:E.
  - apply String.eqb_eq in E. subst name. apply lookup_remove_same.
  - apply String.eqb_neq in E. apply lookup_remove_other. exact E.
Qed.

Lemma agree_put (names : list string) (e : entry) (fs fs' : list entry) :
  agree_on names fs fs' -> agree_on names (put_entry e fs) (put_entry e fs').
Proof. intros H n Hn. rewrite !lookup_put, (H n Hn). reflexivity. Qed.

Lemma agree_remove (names : list string) (m : string) (fs fs' : list entry) :
  agree_on names fs fs' ->
  agree_on names (remove_entry m fs) (remove_entry m fs').
Proof. intros H n Hn. rewrite !lookup_remove, (H n Hn). reflexivity. Qed.

Lemma payloads_of_below (e : entry) :
  forall dir p, In p (payloads_of dir e) -> exists rel, p = dir ++ rel.
Proof.
  induction e as [name data | name items IH] using entry_induction;
    intros dir p Hp.
  - cbn [payloads_of] in Hp. destruct (endsWith name ".mmdb");
      [|contradiction]. destruct Hp as [<- | []]. exists [name]. reflexivity.
  - rewrite payloads_of_dir in Hp.
    induction IH as [|e rest He _ IHrest]; [contradiction|].
    cbn [payloads] in Hp. apply in_app_or in Hp. destruct Hp as [Hp | Hp].
    + destruct (He _ _ Hp) as [rel ->]. exists (name :: rel).
      unfold join. rewrite <- app_assoc. reflexivity.
    + apply IHrest. exact Hp.
Qed.

Lemma findMmdbFile_below (dir : path) (items : list entry) (p : path) :
  findMmdbFile dir items = Some p -> exists rel, p = dir ++ rel.
Proof.
  rewrite findMmdbFile_first. intros H.
  assert (Hin : In p (payloads dir items)).
  { destruct (payloads dir items) as [|q l]; [discriminate|].
    injection H as ->. left. reflexivity. }
  clear H. induction items as [|e rest IH]; [contradiction|].
  cbn [payloads] in Hin. apply in_app_or in Hin. destruct Hin as [Hin | Hin].
  - exact (payloads_of_below e dir p Hin).
  - apply IH. exact Hin.
Qed.

Lemma read_path_local (n : string) (rel : path) (fs fs' : list entry) :
  lookup_entry n fs = lookup_entry n fs' ->
  read_path (n :: rel) fs = read_path (n :: rel) fs'.
Proof. intros H. destruct rel; cbn [read_path]; rewrite H; reflexivity. Qed.

Lemma writeFileSync_local (n d : string) (fs fs' : list entry) :
  lookup_entry n fs = lookup_entry n fs' ->
  (exists m, writeFileSync n d fs = Thrown m /\ writeFileSync n d fs' = Thrown m)
  \/ (writeFileSync n d fs = Done (put_entry (File n d) fs)
      /\ writeFileSync n d fs' = Done (put_entry (File n d) fs')).
Proof.
  intros H. unfold writeFileSync. rewrite <- H.
  destruct (lookup_entry n fs) as [[? ?|? ?]|]; eauto.
Qed.

Lemma unlinkSync_local (n : string) (fs fs' : list entry) :
  lookup_entry n fs = lookup_entry n fs' ->
  (exists m, unlinkSync n fs = Thrown m /\ unlinkSync n fs' = Thrown m)
  \/ (unlinkSync n fs = Done (remove_entry n fs)
      /\ unlinkSync n fs' = Done (remove_entry n fs')).
Proof.
  intros H. unfold unlinkSync. rewrite <- H.
  destruct (lookup_entry n fs) as [[? ?|? ?]|]; eauto.
Qed.

Lemma copyFileSync_local (p : path) (dest : string) (fs fs' : list entry) :
  read_path p fs = read_path p fs' ->
  lookup_entry dest fs = lookup_entry dest fs' ->
  (exists m, copyFileSync p dest fs = Thrown m
             /\ copyFileSync p dest fs' = Thrown m)
  \/ (exists d, copyFileSync p dest fs = Done (put_entry (File dest d) fs)
                /\ copyFileSync p dest fs' = Done (put_entry (File dest d) fs')).
Proof.
  intros Hr Hl. unfold copyFileSync. rewrite <- Hr.
  destruct (read_path p fs) as [[? d|? ?]|]; eauto.
  destruct (writeFileSync_local dest d fs fs' Hl) as [(m & -> & ->) | [-> ->]];
    eauto.
Qed.

Section RefreshLocal.

Variable tar_extract : string -> list entry -> attempt (list entry).

Lemma try_block_local (type : string) (response : attempt string)
    (fs fs' : list entry) :
  agree_on (job_names type) fs fs' ->
  snd (try_block tar_extract type response fs)
  = snd (try_block tar_extract type response fs')
  /\ agree_on (job_names type)
       (fst (try_block tar_extract type response fs))
       (fst (try_block tar_extract type response fs')).
Proof.
  intros A. unfold try_block. cbv zeta.
  destruct response as [data|m0]; [|split; [reflexivity | exact A]].
  assert (AF : lookup_entry (tempFile_of type) fs
               = lookup_entry (tempFile_of type) fs')
    by (apply A; cbn; auto).
  destruct (writeFileSync_local (tempFile_of type) data fs fs' AF)
    as [(m & -> & ->) | [-> ->]]; [split; [reflexivity | exact A]|].
  pose proof (@agree_put _ (File (tempFile_of type) data) _ _ A) as A1.
  set (fs1 := put_entry (File (tempFile_of type) data) fs) in *.
  set (fs1' := put_entry (File (tempFile_of type) data) fs') in *.
  clearbody fs1 fs1'.
  assert (EX : existsSync (tempDir_of type) fs1'
               = existsSync (tempDir_of type) fs1).
  { unfold existsSync. rewrite (A1 (tempDir_of type)) by (cbn; auto).
    reflexivity. }
  rewrite EX.
  assert (A2 : agree_on (job_names type)
                 (if existsSync (tempDir_of type) fs1
                  then fs1 else mkdirSync (tempDir_of type) fs1)
                 (if existsSync (tempDir_of type) fs1
                  then fs1' else mkdirSync (tempDir_of type) fs1')).
  { destruct (existsSync (tempDir_of type) fs1);
      [exact A1 | apply agree_put; exact A1]. }
  set (fs2 := if existsSync (tempDir_of type) fs1
              then fs1 else mkdirSync (tempDir_of type) fs1) in *.
  set (fs2' := if existsSync (tempDir_of type) fs1
               then fs1' else mkdirSync (tempDir_of type) fs1') in *.
  clearbody fs2 fs2'.
  rewrite <- (A2 (tempDir_of type)) by (cbn; auto).
  destruct (match lookup_entry (tempDir_of type) fs2 with
            | Some (Dir _ items) => tar_extract data items
            | _ => Thrown "ENOTDIR: not a directory"
            end) as [items|m]; [|split; [reflexivity | exact A2]].
  pose proof (@agree_put _ (Dir (tempDir_of type) items) _ _ A2) as A3.
  set (fs3 := put_entry (Dir (tempDir_of type) items) fs2) in *.
  set (fs3' := put_entry (Dir (tempDir_of type) items) fs2') in *.
  clearbody fs3 fs3'.
  destruct (findMmdbFile [tempDir_of type] items) as [p|] eqn:F;
    [|split; [reflexivity | exact A3]].
  destruct (findMmdbFile_below _ _ _ F) as [rel Ep].
  assert (AR : read_path p fs3 = read_path p fs3').
  { rewrite Ep. cbn [app]. apply read_path_local, A3. cbn. auto. }
  assert (AP : lookup_entry (destPath_of type) fs3
               = lookup_entry (destPath_of type) fs3')
    by (apply A3; cbn; auto).
  destruct (copyFileSync_local p (destPath_of type) fs3 fs3' AR AP)
    as [(m & -> & ->) | (d & -> & ->)]; [split; [reflexivity | exact A3]|].
  pose proof (@agree_put _ (File (destPath_of type) d) _ _ A3) as A4.
  set (fs4 := put_entry (File (destPath_of type) d) fs3) in *.
  set (fs4' := put_entry (File (destPath_of type) d) fs3') in *.
  clearbody fs4 fs4'.
  assert (AF4 : lookup_entry (tempFile_of type) fs4
                = lookup_entry (tempFile_of type) fs4')
    by (apply A4; cbn; auto).
  destruct (unlinkSync_local (tempFile_of type) fs4 fs4' AF4)
    as [(m & -> & ->) | [-> ->]]; [split; [reflexivity | exact A4]|].
  split; [reflexivity|]. cbn [fst]. unfold rmSync.
  apply agree_remove, agree_remove. exact A4.
Qed.

Lemma job_local (type : string) (response : attempt string)
    (fs fs' : list entry) :
  agree_on (job_names type) fs fs' ->
  snd (downloadAndExtractDatabase tar_extract type response fs)
  = snd (downloadAndExtractDatabase tar_extract type response fs')
  /\ agree_on (job_names type)
       (fst (downloadAndExtractDatabase tar_extract type response fs))
       (fst (downloadAndExtractDatabase tar_extract type response fs')).
Proof.
  intros A. destruct (try_block_local type response fs fs' A) as [Hs Ha].
  unfold downloadAndExtractDatabase.
  destruct (try_block tar_extract type response fs) as [fs1 r1].
  destruct (try_block tar_extract type response fs') as [fs1' r1'].
  cbn [fst snd] in Hs, Ha. subst r1'.
  destruct r1 as [u|m]; [split; [reflexivity | exact Ha]|].
  assert (AF : lookup_entry (tempFile_of type) fs1
               = lookup_entry (tempFile_of type) fs1')
    by (apply Ha; cbn; auto).
  assert (EX : existsSync (tempFile_of type) fs1'
               = existsSync (tempFile_of type) fs1)
    by (unfold existsSync; rewrite AF; reflexivity).
  rewrite EX.
  destruct (existsSync (tempFile_of type) fs1);
    [|split; [reflexivity | exact Ha]].
  destruct (unlinkSync_local (tempFile_of type) fs1 fs1' AF)
    as [(m' & -> & ->) | [-> ->]]; [split; [reflexivity | exact Ha]|].
  split; [reflexivity|]. cbn [fst]. apply agree_remove. exact Ha.
Qed.

End RefreshLocal.

Lemma slot_taken_false (type : string) (fs : list entry) :
  slot_taken type fs = false <-> archive_slot_free type fs.
Proof.
  unfold slot_taken, archive_slot_free.
  destruct (lookup_entry (tempFile_of type) fs) as [[? ?|n l]|]; split;
    intros H; try reflexivity; try (intros ? ?; discriminate);
    try discriminate. elim (H n l). reflexivity.
Qed.

Section ExitCode.

Variable tar_extract : string -> list entry -> attempt (list entry).

Lemma job_rejected (type : string) (response : attempt string)
    (fs : list entry) :
  slot_taken type fs = true ->
  exists message,
    downloadAndExtractDatabase tar_extract type response fs
    = (fs, Rejected message).
Proof.
  unfold slot_taken. intros H.
  destruct (lookup_entry (tempFile_of type) fs) as [[? ?|n l]|] eqn:E;
    try discriminate.
  assert (X : existsSync (tempFile_of type) fs = true)
    by (unfold existsSync; rewrite E; reflexivity).
  assert (U : unlinkSync (tempFile_of type) fs
              = Thrown "EISDIR: illegal operation on a directory")
    by (unfold unlinkSync; rewrite E; reflexivity).
  unfold downloadAndExtractDatabase, try_block.
  destruct response as [data|m0].
  - assert (W : writeFileSync (tempFile_of type) data fs
                = Thrown "EISDIR: illegal operation on a directory")
      by (unfold writeFileSync; rewrite E; reflexivity).
    rewrite W, X, U. eauto.
  - rewrite X, U. eauto.
Qed.

Lemma slot_taken_after (type other : string) (response : attempt string)
    (fs : list entry) :
  ~ In (tempFile_of type) (job_names other) ->
  slot_taken type
    (fst (downloadAndExtractDatabase tar_extract other response fs))
  = slot_taken type fs.
Proof.
  intros Hn. unfold slot_taken.
  rewrite (job_same_outside tar_extract other response fs _ Hn). reflexivity.
Qed.

Lemma not_rejected_branch (out : Outcome) (A : Type) (a b : A) :
  (forall m, out <> Rejected m) ->
  match out with Rejected _ => a | _ => b end = b.
Proof.
  intros N. destruct out as [| |m]; try reflexivity. elim (N m). reflexivity.
Qed.

Lemma update_runs_all (responses : string -> attempt string)
    (fs : list entry) :
  slot_taken "country" fs = false -> slot_taken "city" fs = false ->
  slot_taken "asn" fs = false ->
  updateAllDatabases tar_extract responses fs
  = (fst (downloadAndExtractDatabase tar_extract "asn" (responses "asn")
            (fst (downloadAndExtractDatabase tar_extract "city"
                    (responses "city")
                    (fst (downloadAndExtractDatabase tar_extract "country"
                            (responses "country") fs))))), 0).
Proof.
  intros S1 S2 S3. unfold updateAllDatabases.
  pose proof (fun m => job_not_rejected tar_extract "country"
                         (responses "country") fs m
                         (proj1 (slot_taken_false "country" fs) S1)) as N1.
  rewrite <- (slot_taken_after "city" "country" (responses "country") fs)
    in S2 by (cbv; intuition discriminate).
  rewrite <- (slot_taken_after "asn" "country" (responses "country") fs)
    in S3 by (cbv; intuition discriminate).
  destruct (downloadAndExtractDatabase tar_extract "country"
              (responses "country") fs) as [fs1 o1].
  cbn [fst snd] in *. rewrite (not_rejected_branch o1 _ _ _ N1).
  pose proof (fun m => job_not_rejected tar_extract "city"
                         (responses "city") fs1 m
                         (proj1 (slot_taken_false "city" fs1) S2)) as N2.
  rewrite <- (slot_taken_after "asn" "city" (responses "city") fs1)
    in S3 by (cbv; intuition discriminate).
  destruct (downloadAndExtractDatabase tar_extract "city"
              (responses "city") fs1) as [fs2 o2].
  cbn [fst snd] in *. rewrite (not_rejected_branch o2 _ _ _ N2).
  pose proof (fun m => job_not_rejected tar_extract "asn"
                         (responses "asn") fs2 m
                         (proj1 (slot_taken_false "asn" fs2) S3)) as N3.
  destruct (downloadAndExtractDatabase tar_extract "asn"
              (responses "asn") fs2) as [fs3 o3].
  cbn [fst snd] in *. rewrite (not_rejected_branch o3 _ _ _ N3). reflexivity.
Qed.

(** X16.  [updateAllDatabases] ends the process with code 1 exactly when a
    directory sits under one of the three archive names; failed
    downloads, extractions or searches leave the code at 0. *)
Theorem update_exit_code (responses : string -> attempt string)
    (fs : list entry) :
  snd (updateAllDatabases tar_extract responses fs)
  = if slot_taken "country" fs || slot_taken "city" fs || slot_taken "asn" fs
    then 1 else 0.
Proof.
  destruct (slot_taken "country" fs) eqn:S1.
  { unfold updateAllDatabases.
    destruct (job_rejected "country" (responses "country") fs S1) as [m ->].
    reflexivity. }
  destruct (slot_taken "city" fs) eqn:S2.
  { unfold updateAllDatabases.
    pose proof (fun m => job_not_rejected tar_extract "country"
                           (responses "country") fs m
                           (proj1 (slot_taken_false "country" fs) S1)) as N1.
    rewrite <- (slot_taken_after "city" "country" (responses "country") fs)
      in S2 by (cbv; intuition discriminate).
    destruct (downloadAndExtractDatabase tar_extract "country"
                (responses "country") fs) as [fs1 o1].
    cbn [fst snd] in *. rewrite (not_rejected_branch o1 _ _ _ N1).
    destruct (job_rejected "city" (responses "city") fs1 S2) as [m ->].
    reflexivity. }
  destruct (slot_taken "asn" fs) eqn:S3.
  { unfold updateAllDatabases.
    pose proof (fun m => job_not_rejected tar_extract "country"
                           (responses "country") fs m
                           (proj1 (slot_taken_false "country" fs) S1)) as N1.
    rewrite <- (slot_taken_after "city" "country" (responses "country") fs)
      in S2 by (cbv; intuition discriminate).
    rewrite <- (slot_taken_after "asn" "country" (responses "country") fs)
      in S3 by (cbv; intuition discriminate).
    destruct (downloadAndExtractDatabase tar_extract "country"
                (responses "country") fs) as [fs1 o1].
    cbn [fst snd] in *. rewrite (not_rejected_branch o1 _ _ _ N1).
    pose proof (fun m => job_not_rejected tar_extract "city"
                           (responses "city") fs1 m
                           (proj1 (slot_taken_false "city" fs1) S2)) as N2.
    rewrite <- (slot_taken_after "asn" "city" (responses "city") fs1)
      in S3 by (cbv; intuition discriminate).
    destruct (downloadAndExtractDatabase tar_extract "city"
                (responses "city") fs1) as [fs2 o2].
    cbn [fst snd] in *. rewrite (not_rejected_branch o2 _ _ _ N2).
    destruct (job_rejected "asn" (responses "asn") fs2 S3) as [m ->].
    reflexivity. }
  rewrite (update_runs_all responses fs S1 S2 S3). reflexivity.
Qed.

End ExitCode.

Lemma job_names_disjoint (t1 t2 n : string) :
  In t1 ["country"; "city"; "asn"] -> In t2 ["country"; "city"; "asn"] ->
  t1 <> t2 -> In n (job_names t1) -> ~ In n (job_names t2).
Proof.
  intros H1 H2 Hne Hn Hn'.
  destruct H1 as [<- | [<- | [<- | []]]];
    destruct H2 as [<- | [<- | [<- | []]]];
    try congruence;
    cbv in Hn, Hn';
    repeat match goal with
           | H : _ \/ _ |- _ => destruct H
           | H : False |- _ => contradiction
           end;
    subst; discriminate.
Qed.

(** X17.  In a run of the script the published file of each type is the
    one that the job of that type alone would leave: the jobs of the
    other types, whether they fail or succeed, do not change it. *)
Theorem refresh_types_are_isolated
    (tar_extract : string -> list entry -> attempt (list entry))
    (responses : string -> attempt string) (fs : list entry) (type : string) :
  slot_taken "country" fs = false -> slot_taken "city" fs = false ->
  slot_taken "asn" fs = false ->
  In type ["country"; "city"; "asn"] ->
  lookup_entry (destPath_of type)
    (fst (updateAllDatabases tar_extract responses fs))
  = lookup_entry (destPath_of type)
      (fst (downloadAndExtractDatabase tar_extract type (responses type) fs)).
Proof.
  intros S1 S2 S3 Ht.
  rewrite (update_runs_all tar_extract responses fs S1 S2 S3). cbn [fst].
  set (fs1 := fst (downloadAndExtractDatabase tar_extract "country"
                     (responses "country") fs)).
  set (fs2 := fst (downloadAndExtractDatabase tar_extract "city"
                     (responses "city") fs1)).
  pose proof (job_same_outside tar_extract "country" (responses "country") fs)
    as F1. fold fs1 in F1.
  pose proof (job_same_outside tar_extract "city" (responses "city") fs1)
    as F2. fold fs2 in F2.
  pose proof (job_same_outside tar_extract "asn" (responses "asn") fs2) as F3.
  assert (Hdest : forall t, In (destPath_of t) (job_names t))
    by (intros t; cbn; auto).
  assert (M1 : In "country" ["country"; "city"; "asn"]) by (cbn; auto).
  assert (M2 : In "city" ["country"; "city"; "asn"]) by (cbn; auto).
  assert (M3 : In "asn" ["country"; "city"; "asn"]) by (cbn; auto).
  destruct Ht as [<- | [<- | [<- | []]]].
  - rewrite F3
      by (apply (job_names_disjoint "country" "asn");
          [exact M1 | exact M3 | discriminate | apply Hdest]).
    rewrite F2
      by (apply (job_names_disjoint "country" "city");
          [exact M1 | exact M2 | discriminate | apply Hdest]).
    reflexivity.
  - rewrite F3
      by (apply (job_names_disjoint "city" "asn");
          [exact M2 | exact M3 | discriminate | apply Hdest]).
    subst fs2.
    destruct (job_local tar_extract "city" (responses "city") fs1 fs)
      as [_ Ha]; [|apply Ha, Hdest].
    intros n Hn. apply F1.
    apply (job_names_disjoint "city" "country");
      [exact M2 | exact M1 | discriminate | exact Hn].
  - destruct (job_local tar_extract "asn" (responses "asn") fs2 fs)
      as [_ Ha]; [|apply Ha, Hdest].
    intros n Hn. rewrite F2, F1; [reflexivity | |].
    + apply (job_names_disjoint "asn" "country");
        [exact M3 | exact M1 | discriminate | exact Hn].
    + apply (job_names_disjoint "asn" "city");
        [exact M3 | exact M2 | discriminate | exact Hn].
Qed.

Lemma refresh_types_are_isolated_witness :
  lookup_entry (destPath_of "city")
    (fst (updateAllDatabases Archives.tar_extract
            (fun type => if String.eqb type "city"
                         then Done "archive with one payload"
                         else Thrown "Request failed with status code 401")
            []))
  = Some (File "GeoLite2-City.mmdb" "the payload").
Proof.
  rewrite (@refresh_types_are_isolated Archives.tar_extract
             (fun type => if String.eqb type "city"
                          then Done "archive with one payload"
                          else Thrown "Request failed with status code 401")
             [] "city" eq_refl eq_refl eq_refl).
  - reflexivity.
  - cbn. auto.
Defined.

Lemma update_exit_code_witness :
  snd (updateAllDatabases Archives.tar_extract Disk.every_download_fails [])
  = 0.
Proof.
  exact (@update_exit_code Archives.tar_extract Disk.every_download_fails []).
Defined.

Lemma unreadable_country_file_blocks_service_witness :
  initDatabases Disk.opener Disk.truncated_country not_initialized
  = not_initialized
  /\ lookup (initDatabases Disk.opener Disk.truncated_country not_initialized)
       (Examples.request_for "8.8.8.8") = ([], unavailable).
Proof.
  apply (@unreadable_country_file_blocks_service Disk.opener
           Disk.truncated_country "the payl" "Unknown type NaN at offset 0"
           (Examples.request_for "8.8.8.8")); reflexivity.
Defined.

Lemma search_reads_back_witness :
  search_result ["temp_country"] Archives.with_two_payloads
    (Some ["temp_country"; "GeoLite2-Country_20240102";
           "GeoLite2-Country-old.mmdb"]).
Proof.
  apply (@search_reads_back ["temp_country"] Archives.with_two_payloads).
  unfold unique_names, Archives.with_two_payloads.
  split; repeat constructor; simpl; intuition discriminate.
Defined.

Lemma refreshed_asn_is_never_loaded_witness :
  lookup_entry "GeoLite2-Asn.mmdb"
    (fst (updateAllDatabases Archives.tar_extract
            Disk.every_download_succeeds []))
  = Some (File "GeoLite2-Asn.mmdb" "the payload")
  /\ ipAsnDB (initDatabases Disk.opener
                (fst (updateAllDatabases Archives.tar_extract
                        Disk.every_download_succeeds []))
                not_initialized) = None.
Proof.
  split; [reflexivity|].
  apply (@refreshed_asn_is_never_loaded Archives.tar_extract
           Disk.every_download_succeeds Disk.opener []).
  reflexivity.
Defined.


